(** * Knock-Knock: the request handlers of [main/views.py]

    A shallow embedding of the Django views of the Knock-Knock task
    marketplace: the database is an explicit state (three tables), a view is
    a function from a request to a computation over that state which either
    returns a response or raises an exception.  The Python and Django library
    functions the views call ([int], [str.strip], [Paginator],
    [login_required], ...) are embedded next to them, as CPython 3.11 and
    Django 3 and later have them.  What the sources of the repository do not
    decide (the [save] of the missing [main/models.py], the parser of dates
    of the interpreter at hand, the text matching of the database) is a
    parameter of the development, [Platform]. *)

From Stdlib Require Import ZArith Ascii String List Lia.
From stdpp Require Import base option gmap strings list fin_maps sorting.

Local Open Scope string_scope.
Local Open Scope Z_scope.

(* ===================================================================== *)
(** ** Python builtins used by the views *)
(* ===================================================================== *)

Module Py.

(** Characters are code points below 256. *)
Definition ord (c : ascii) : Z := Z.of_N (N_of_ascii c).

Definition between (lo hi : Z) (c : ascii) : bool :=
  (lo <=? ord c) && (ord c <=? hi).

(** [str.isspace] on one character: tab .. carriage return, the four
    separators 0x1c .. 0x1f, space, NEL and the no-break space. *)
Definition isspace (c : ascii) : bool :=
  between 9 13 c || between 28 32 c || (ord c =? 133) || (ord c =? 160).

Fixpoint lstrip_if (p : ascii -> bool) (s : string) : string :=
  match s with
  | EmptyString => EmptyString
  | String c s' => if p c then lstrip_if p s' else s
  end.

Fixpoint rstrip_if (p : ascii -> bool) (s : string) : string :=
  match s with
  | EmptyString => EmptyString
  | String c s' =>
      match rstrip_if p s' with
      | EmptyString => if p c then EmptyString else String c EmptyString
      | r => String c r
      end
  end.

(** [s.strip()] *)
Definition strip (s : string) : string := rstrip_if isspace (lstrip_if isspace s).

(** Truth value of a [str]: the empty string is false. *)
Definition truthy (s : string) : bool :=
  match s with EmptyString => false | String _ _ => true end.

(** White space that [int] skips around the number: the ASCII white space
    of C and the non-ASCII spaces (0x1c .. 0x1f are not skipped). *)
Definition int_space (c : ascii) : bool :=
  between 9 13 c || (ord c =? 32) || (ord c =? 133) || (ord c =? 160).

Definition digit_value (c : ascii) : option Z :=
  if between 48 57 c then Some (ord c - 48) else None.

(** The digits of a base-10 literal: at least one digit, single underscores
    allowed between digits only. *)
Fixpoint int_digits (after_digit : bool) (acc : Z) (s : string) : option Z :=
  match s with
  | EmptyString => if after_digit then Some acc else None
  | String c s' =>
      match digit_value c with
      | Some d => int_digits true (10 * acc + d) s'
      | None =>
          if (ord c =? 95) && after_digit then int_digits false acc s' else None
      end
  end.

(** [sys.int_max_str_digits], at its default. *)
Definition int_max_str_digits : Z := 4300.

(** The number of digits of a literal; underscores do not count, leading
    zeros do. *)
Fixpoint count_digits (s : string) : Z :=
  match s with
  | EmptyString => 0
  | String c s' => (if between 48 57 c then 1 else 0) + count_digits s'
  end.

(** The literal after the sign: its digits, refused when there are more than
    [int_max_str_digits] of them. *)
Definition int_literal (r : string) : option Z :=
  match int_digits false 0 r with
  | Some v => if int_max_str_digits <? count_digits r then None else Some v
  | None => None
  end.

(** [int(s)] for a [str]; [None] stands for [ValueError]. *)
Definition int (s : string) : option Z :=
  match rstrip_if int_space (lstrip_if int_space s) with
  | String "+" r => int_literal r
  | String "-" r => Z.opp <$> int_literal r
  | r => int_literal r
  end.

(** ASCII case folding and containment, for the text matching of the
    database on which the examples run. *)
Definition lower_char (c : ascii) : ascii :=
  if between 65 90 c then ascii_of_N (N_of_ascii c + 32) else c.

Fixpoint lower (s : string) : string :=
  match s with
  | EmptyString => EmptyString
  | String c s' => String (lower_char c) (lower s')
  end.

Fixpoint startswith (p s : string) : bool :=
  match p, s with
  | EmptyString, _ => true
  | String a p', String b s' => (ord a =? ord b) && startswith p' s'
  | String _ _, EmptyString => false
  end.

(** [sub in s] *)
Fixpoint contains (sub s : string) : bool :=
  startswith sub s ||
  match s with
  | EmptyString => false
  | String _ s' => contains sub s'
  end.

(** [datetime.date] *)
Record date := Date { year : Z; month : Z; day : Z }.

Definition is_leap (y : Z) : bool :=
  (y mod 4 =? 0) && (negb (y mod 100 =? 0) || (y mod 400 =? 0)).

Definition days_in_month (y m : Z) : Z :=
  if m =? 2 then (if is_leap y then 29 else 28)
  else if (m =? 4) || (m =? 6) || (m =? 9) || (m =? 11) then 30
  else 31.

Definition digits2 (a b : ascii) : option Z :=
  x ← digit_value a; y ← digit_value b; Some (10 * x + y).

Definition calendar_date (y m d : Z) : option date :=
  if (1 <=? y) && (1 <=? m) && (m <=? 12) && (1 <=? d) && (d <=? days_in_month y m)
  then Some (Date y m d) else None.

(** A parser of dates for the examples: the two calendar formats
    [YYYY-MM-DD] and [YYYYMMDD] and nothing else.  It is one of the parsers
    that [Platform] ranges over, not [datetime.date.fromisoformat] itself. *)
Definition parse_calendar_date (s : string) : option date :=
  match list_ascii_of_string s with
  | [y1; y2; y3; y4; s1; m1; m2; s2; d1; d2] =>
      if (ord s1 =? 45) && (ord s2 =? 45) then
        yh ← digits2 y1 y2; yl ← digits2 y3 y4;
        m ← digits2 m1 m2; d ← digits2 d1 d2;
        calendar_date (100 * yh + yl) m d
      else None
  | [y1; y2; y3; y4; m1; m2; d1; d2] =>
      yh ← digits2 y1 y2; yl ← digits2 y3 y4;
      m ← digits2 m1 m2; d ← digits2 d1 d2;
      calendar_date (100 * yh + yl) m d
  | _ => None
  end.

Definition date_eqb (a b : date) : bool :=
  (year a =? year b) && (month a =? month b) && (day a =? day b).

End Py.

(* ===================================================================== *)
(** ** The data model: users, knocks and submissions *)
(* ===================================================================== *)

(** [django.contrib.auth]'s user: the row's key and what [has_perm] reads;
    [user_permissions] lists the permissions the user holds, directly or
    through a group. *)
Record User := mkUser {
  user_pk : Z;
  is_active : bool;
  is_superuser : bool;
  user_permissions : list string
}.

(** Modelled from the spec: [main/models.py] is missing; [Knock.Status] is
    the enumeration OPEN, RESERVED, CLOSED. *)
Inductive Status := OPEN | RESERVED | CLOSED.

(** Modelled from the spec: [main/models.py] is missing; a knock row has the
    fields the views read and write.  [requester] and [assigned_to] hold the
    key of the user row; [assigned_to] and the two ratings are nullable.  The
    primary key of a row is its key in the table: the instance loaded by
    [get_object_or_404(Knock, pk=knock_pk)] has [knock.pk = knock_pk]. *)
Record Knock := mkKnock {
  requester : Z;
  assigned_to : option Z;
  status : Status;
  request_stars : option Z;
  work_stars : option Z;
  title : string;
  category : string;
  request_date : Py.date;
  update_time : Z
}.

(** The database: one finite map per table, keyed by primary key;
    [KnockSubmit] rows are the pairs (knock, user). *)
Record DB := mkDB {
  users : gmap Z User;
  knocks : gmap Z Knock;
  knock_submits : gset (Z * Z)
}.

(** A request: the session's user ([None] for the anonymous user), the query
    and form parameters, and the time at which it is served. *)
Record HttpRequest := mkRequest {
  user : option User;
  GET : gmap string string;
  POST : gmap string string;
  time : Z
}.

(** [request.user.pk]; the anonymous user's key is [None]. *)
Definition request_user_pk (request : HttpRequest) : option Z :=
  user_pk <$> user request.

Definition status_eqb (a b : Status) : bool :=
  match a, b with
  | OPEN, OPEN | RESERVED, RESERVED | CLOSED, CLOSED => true
  | _, _ => false
  end.

(* ===================================================================== *)
(** ** What the sources do not decide *)
(* ===================================================================== *)

(** The views are read against a platform, and every property below holds
    for every platform.
    - [saved_status]: [main/models.py] is missing; the spec has the status
      maintained alongside [assigned_to] (OPEN before an assignment,
      RESERVED once assigned, CLOSED when finished), the views never assign
      it, so the status that [Knock.save()] writes for the instance it saves
      is whatever the model makes of that instance.
    - [fromisoformat]: [datetime.date.fromisoformat] of the interpreter;
      [None] stands for [ValueError].  The formats it accepts differ between
      versions of Python.
    - [icontains field s]: whether the database finds that a field of value
      [field] satisfies [field__icontains=s].
    - [refuses s]: whether the database refuses the text [s] as a parameter
      of a query and raises (PostgreSQL does so for a NUL character, SQLite
      never does). *)
Class Platform := mkPlatform {
  saved_status : Knock -> Status;
  fromisoformat : string -> option Py.date;
  icontains : string -> string -> bool;
  refuses : string -> bool
}.

(* ===================================================================== *)
(** ** Exceptions, responses and the monad of a view *)
(* ===================================================================== *)

Inductive Exn :=
| Http404
| PermissionDenied (msg : string)
| AttributeError (msg : string)
| TypeError (msg : string)
| PageNotAnInteger
| EmptyPage
| BackendError.

(** [Page] of [django.core.paginator]. *)
Record Page := mkPage {
  object_list : list (Z * Knock);
  number : Z
}.

Inductive HttpResponse :=
| RedirectKnockDetail (knock_pk : Z)
| RedirectHomepage
| RedirectLogin
| RenderSearch (results : Page) (url_params : string).

(** A computation over the database that returns or raises. *)
Definition M (A : Type) : Type := DB -> (Exn + A) * DB.

Definition ret {A} (a : A) : M A := fun db => (inr a, db).

Definition raise {A} (e : Exn) : M A := fun db => (inl e, db).

Definition bind {A B} (c : M A) (k : A -> M B) : M B :=
  fun db =>
    match c db with
    | (inl e, db') => (inl e, db')
    | (inr a, db') => k a db'
    end.

Notation "'do' x <~ c ; k" := (bind c (fun x => k))
  (at level 10, x name, c at level 100, k at level 200).
Notation "'run' c ; k" := (bind c (fun _ => k))
  (at level 10, c at level 100, k at level 200).

(** [get_object_or_404(Knock, pk=knock_pk)] *)
Definition get_knock_or_404 (knock_pk : Z) : M Knock :=
  fun db =>
    match knocks db !! knock_pk with
    | Some knock => (inr knock, db)
    | None => (inl Http404, db)
    end.

(** [get_object_or_404(get_user_model(), pk=user_pk)] *)
Definition get_user_or_404 (pk : Z) : M User :=
  fun db =>
    match users db !! pk with
    | Some u => (inr u, db)
    | None => (inl Http404, db)
    end.

(** [KnockSubmit.objects.filter(knock=k, user=u).exists()] *)
Definition submit_exists (knock_pk user_pk : Z) : M bool :=
  fun db => (inr (bool_decide ((knock_pk, user_pk) ∈ knock_submits db)), db).

(** [knock.submits.add(user)] *)
Definition submits_add (knock_pk user_pk : Z) : M unit :=
  fun db =>
    (inr tt, mkDB (users db) (knocks db) ({[ (knock_pk, user_pk) ]} ∪ knock_submits db)).

(** Modelled from the spec: [main/models.py] is missing; what
    [Knock.save()] writes for an instance at time [t]: its fields, with
    [update_time] refreshed (the spec has it updated on mutation) and with the
    status of the platform's [saved_status]. *)
Definition saved {pf : Platform} (t : Z) (k : Knock) : Knock :=
  mkKnock (requester k) (assigned_to k) (saved_status k) (request_stars k)
          (work_stars k) (title k) (category k) (request_date k) t.

(** The row of key [knock_pk] is replaced by [knock]. *)
Definition write_knock (knock_pk : Z) (knock : Knock) (db : DB) : DB :=
  mkDB (users db) (<[knock_pk := knock]> (knocks db)) (knock_submits db).

(** [knock.save()]: writes [saved] over the row of the instance. *)
Definition save {pf : Platform} (t : Z) (knock_pk : Z) (knock : Knock) : M unit :=
  fun db => (inr tt, write_knock knock_pk (saved t knock) db).

(** Attribute assignments on the instance. *)
Definition set_assigned_to (u : Z) (k : Knock) : Knock :=
  mkKnock (requester k) (Some u) (status k) (request_stars k)
          (work_stars k) (title k) (category k) (request_date k) (update_time k).

Definition set_request_stars (v : Z) (k : Knock) : Knock :=
  mkKnock (requester k) (assigned_to k) (status k) (Some v)
          (work_stars k) (title k) (category k) (request_date k) (update_time k).

Definition set_work_stars (v : Z) (k : Knock) : Knock :=
  mkKnock (requester k) (assigned_to k) (status k) (request_stars k)
          (Some v) (title k) (category k) (request_date k) (update_time k).

(* ===================================================================== *)
(** ** [django.contrib.auth]: decorators *)
(* ===================================================================== *)

(** [user.has_perm(perm)] of the model backend. *)
Definition has_perm (u : User) (perm : string) : bool :=
  is_active u && (is_superuser u || bool_decide (perm ∈ user_permissions u)).

(** [@login_required]: the anonymous user is sent to the login page. *)
Definition login_required {A} (view : HttpRequest -> A -> M HttpResponse)
  : HttpRequest -> A -> M HttpResponse :=
  fun request a =>
    match user request with
    | Some _ => view request a
    | None => ret RedirectLogin
    end.

(** [@permission_required(perm)] with its default [raise_exception=False]:
    a user without the permission is sent to the login page. *)
Definition permission_required {A} (perm : string)
  (view : HttpRequest -> A -> M HttpResponse) : HttpRequest -> A -> M HttpResponse :=
  fun request a =>
    match user request with
    | Some u => if has_perm u perm then view request a else ret RedirectLogin
    | None => ret RedirectLogin
    end.

(* ===================================================================== *)
(** ** [django.core.paginator] *)
(* ===================================================================== *)

Module Paginator.

(** The argument of [page]: [request.GET.get('page')] is [None] or a
    [str]; the handlers of [search] pass integers. *)
Inductive number_arg :=
| ArgNone
| ArgStr (s : string)
| ArgInt (n : Z).

(** [Paginator(object_list, per_page)], with the defaults [orphans=0] and
    [allow_empty_first_page=True]. *)
Record t := mk {
  objects : list (Z * Knock);
  per_page : Z;
  orphans : Z;
  allow_empty_first_page : bool
}.

Definition Paginator (object_list : list (Z * Knock)) (per_page : Z) : t :=
  mk object_list per_page 0 true.

Definition count (p : t) : Z := Z.of_nat (length (objects p)).

(** [ceil(hits / per_page)] on integers. *)
Definition ceil_div (a b : Z) : Z := - ((- a) / b).

Definition num_pages (p : t) : Z :=
  if (count p =? 0) && negb (allow_empty_first_page p) then 0
  else ceil_div (Z.max 1 (count p - orphans p)) (per_page p).

Definition validate_number (p : t) (number : number_arg) : Exn + Z :=
  match (match number with
         | ArgNone => None
         | ArgStr s => Py.int s
         | ArgInt n => Some n
         end) with
  | None => inl PageNotAnInteger
  | Some n =>
      if n <? 1 then inl EmptyPage
      else if (n >? num_pages p) && negb ((n =? 1) && allow_empty_first_page p)
           then inl EmptyPage
           else inr n
  end.

(** [l[bottom:top]] for indices that are not negative. *)
Definition slice {A} (l : list A) (bottom top : Z) : list A :=
  drop (Z.to_nat bottom) (take (Z.to_nat top) l).

Definition page (p : t) (number : number_arg) : Exn + Page :=
  match validate_number p number with
  | inl e => inl e
  | inr n =>
      let bottom := (n - 1) * per_page p in
      let top := bottom + per_page p in
      let top := if top + orphans p >=? count p then count p else top in
      inr (mkPage (slice (objects p) bottom top) n)
  end.

End Paginator.

(* ===================================================================== *)
(** ** The views *)
(* ===================================================================== *)

(** *** [KnockDeleteView] *)

Module KnockDeleteView.

(** [self.get_object()] is the knock of the URL. *)
Definition test_func (request : HttpRequest) (knock_pk : Z) : M bool :=
  do knock <~ get_knock_or_404 knock_pk;
  ret (bool_decide (Some (requester knock) = request_user_pk request)
       && existsb (status_eqb (status knock)) [OPEN; RESERVED]).

(** [knock.delete()].  Modelled from the spec: [main/models.py] is missing;
    the submissions of a knock are join records and go with it. *)
Definition delete (knock_pk : Z) : M unit :=
  fun db =>
    (inr tt, mkDB (users db) (base.delete knock_pk (knocks db))
                  (filter (fun s => s.1 ≠ knock_pk) (knock_submits db))).

(** A POST to the view: [LoginRequiredMixin], then [UserPassesTestMixin],
    then the deletion and the redirect to [success_url]. *)
Definition post (request : HttpRequest) (knock_pk : Z) : M HttpResponse :=
  match user request with
  | None => ret RedirectLogin
  | Some _ =>
      do allowed <~ test_func request knock_pk;
      if allowed then
        run delete knock_pk;
        ret RedirectHomepage
      else raise (PermissionDenied "")
  end.

End KnockDeleteView.

(** *** [submit] *)

Definition submit_view {pf : Platform} (request : HttpRequest) (knock_pk : Z) : M HttpResponse :=
  do knock <~ get_knock_or_404 knock_pk;
  if bool_decide (Some (requester knock) = request_user_pk request) then
    raise (PermissionDenied "Cannot submit to owned knocks")
  else
    match request_user_pk request with
    | None => raise (TypeError "Field 'id' expected a number but got AnonymousUser")
    | Some user_pk =>
        do already <~ submit_exists knock_pk user_pk;
        if already then
          raise (PermissionDenied "User already submitted for this Knock Knock")
        else
          run submits_add knock_pk user_pk;
          run save (time request) knock_pk knock;
          ret (RedirectKnockDetail knock_pk)
    end.

Definition submit {pf : Platform} : HttpRequest -> Z -> M HttpResponse :=
  login_required (permission_required "main.can_submit_for_knocks" submit_view).

(** *** [assing_to] *)

(** The second and third argument of the view are [knock_pk] and [user_pk].
    The user loaded by [pk=user_pk] has that key, which is what the
    assignment stores in the knock. *)
Definition assing_to_view {pf : Platform} (request : HttpRequest) (args : Z * Z) : M HttpResponse :=
  let '(knock_pk, user_pk) := args in
  do knock <~ get_knock_or_404 knock_pk;
  do user <~ get_user_or_404 user_pk;
  if negb (bool_decide (Some (requester knock) = request_user_pk request)) then
    raise (PermissionDenied "Can assign only to owned Knock Knocks")
  else
    do submitted <~ submit_exists knock_pk user_pk;
    if negb submitted then
      raise (PermissionDenied "Cannot assing if worker didn't submit before")
    else
      run save (time request) knock_pk (set_assigned_to user_pk knock);
      ret (RedirectKnockDetail knock_pk).

Definition assing_to {pf : Platform} (request : HttpRequest) (knock_pk user_pk : Z) : M HttpResponse :=
  login_required assing_to_view request (knock_pk, user_pk).

(** *** [rating] *)

(** The [try] block: [int(rating_value)] and the range test, both of which
    end in [ValueError] ([None]). *)
Definition parse_rating (rating_value : string) : option Z :=
  match Py.int rating_value with
  | Some v => if (v <? 1) || (v >? 5) then None else Some v
  | None => None
  end.

Definition rating_view {pf : Platform} (request : HttpRequest) (knock_pk : Z) : M HttpResponse :=
  do knock <~ get_knock_or_404 knock_pk;
  match POST request !! "rating" with
  | None => raise (PermissionDenied "rating field missing")
  | Some rating_value =>
      match parse_rating rating_value with
      | None => raise (PermissionDenied "rating must be a value between 1 and 5")
      | Some rating_value =>
          match assigned_to knock with
          | None => raise (AttributeError "'NoneType' object has no attribute 'pk'")
          | Some assigned_pk =>
              if bool_decide (Some assigned_pk = request_user_pk request) then
                match request_stars knock with
                | Some _ => raise (PermissionDenied "Worker already rated this Knock Knock")
                | None =>
                    run save (time request) knock_pk (set_request_stars rating_value knock);
                    ret (RedirectKnockDetail knock_pk)
                end
              else if bool_decide (Some (requester knock) = request_user_pk request) then
                match work_stars knock with
                | Some _ => raise (PermissionDenied "Worker already rated this Knock Knock")
                | None =>
                    run save (time request) knock_pk (set_work_stars rating_value knock);
                    ret (RedirectKnockDetail knock_pk)
                end
              else
                raise (PermissionDenied "Only requester and assigned can rate this Knock Knock")
          end
      end
  end.

Definition rating {pf : Platform} : HttpRequest -> Z -> M HttpResponse :=
  login_required rating_view.

(** *** [search] *)

(** [django.db.models.Q]: the lookups that [search] builds, and [&]. *)
Inductive Q :=
| Q_empty
| Q_title_icontains (s : string)
| Q_request_date (d : Py.date)
| Q_category_icontains (s : string)
| Q_and (a b : Q).

(** A lookup on a row; the text lookups are the database's. *)
Fixpoint Q_holds {pf : Platform} (q : Q) (knock : Knock) : bool :=
  match q with
  | Q_empty => true
  | Q_title_icontains s => icontains (title knock) s
  | Q_request_date d => Py.date_eqb (request_date knock) d
  | Q_category_icontains s => icontains (category knock) s
  | Q_and a b => Q_holds a knock && Q_holds b knock
  end.

(** Whether the database refuses one of the text parameters of [q]. *)
Fixpoint Q_refused {pf : Platform} (q : Q) : bool :=
  match q with
  | Q_empty => false
  | Q_title_icontains s => refuses s
  | Q_request_date _ => false
  | Q_category_icontains s => refuses s
  | Q_and a b => Q_refused a || Q_refused b
  end.

(** [Knock.objects.filter(q).all()]: the rows of the table that satisfy [q],
    with their keys, in the order of the table.  The queryset is evaluated
    when the paginator counts it, which every path of [search] does; a
    refusal of the database ends the view there, and is raised here. *)
Definition knocks_filter {pf : Platform} (q : Q) : M (list (Z * Knock)) :=
  fun db =>
    if Q_refused q then (inl BackendError, db)
    else (inr (filter (fun row => Q_holds q row.2) (map_to_list (knocks db))), db).

(** [str(date)] of a [datetime.date]: four digits for the year and two for
    the month and for the day, which is what [str] writes for the dates that
    a [datetime.date] can hold (years 1 to 9999). *)
Definition digit_char (d : Z) : ascii := ascii_of_N (Z.to_N (48 + d)).

Definition pad2 (n : Z) : string :=
  String (digit_char (n / 10)) (String (digit_char (n mod 10)) EmptyString).

Definition isoformat (d : Py.date) : string :=
  pad2 (Py.year d / 100) +:+ pad2 (Py.year d mod 100) +:+ "-"
  +:+ pad2 (Py.month d) +:+ "-" +:+ pad2 (Py.day d).

(** The filters that [search] collects from the query parameters, in the
    order in which the view appends them, and the value of [date] after the
    [try] block (the parsed date, or the parameter as it came). *)
Definition search_filters {pf : Platform} (request : HttpRequest) : list Q :=
  let filters : list Q := [] in
  let title := default "" (GET request !! "title") in
  let filters :=
    if Py.truthy (Py.strip title) then (filters ++ [Q_title_icontains title])%list else filters in
  let date := default "" (GET request !! "date") in
  (* [if title is not None]: [title] is a [str], the test always passes *)
  let filters :=
    match fromisoformat date with
    | Some d => (filters ++ [Q_request_date d])%list
    | None => filters
    end in
  let category := default "" (GET request !! "category") in
  if Py.truthy (Py.strip category) then (filters ++ [Q_category_icontains category])%list
  else filters.

(** [results] before pagination. *)
Definition search_results {pf : Platform} (request : HttpRequest) : M (list (Z * Knock)) :=
  let filters := search_filters request in
  if 0 <? Z.of_nat (length filters) then
    knocks_filter (fold_left Q_and filters Q_empty)
  else ret [].

Definition search_page (results : list (Z * Knock)) (page : option string) : Exn + Page :=
  let paginator := Paginator.Paginator results 20 in
  match Paginator.page paginator
          (match page with Some s => Paginator.ArgStr s | None => Paginator.ArgNone end) with
  | inl PageNotAnInteger => Paginator.page paginator (Paginator.ArgInt 1)
  | inl EmptyPage =>
      Paginator.page paginator (Paginator.ArgInt (Paginator.num_pages paginator))
  | other => other
  end.

Definition search {pf : Platform} (request : HttpRequest) : M HttpResponse :=
  let title := default "" (GET request !! "title") in
  let date := default "" (GET request !! "date") in
  let category := default "" (GET request !! "category") in
  do results <~ search_results request;
  match search_page results (GET request !! "page") with
  | inl e => raise e
  | inr results =>
      let date := match fromisoformat date with Some d => isoformat d | None => date end in
      let url_params := "title=" +:+ title +:+ "&date=" +:+ date +:+ "&category=" +:+ category in
      ret (RenderSearch results url_params)
  end.

(* ===================================================================== *)
(** ** The read views: [homepage], [my_profile], [profile] *)
(* ===================================================================== *)

(** The lookups that [homepage] and [profile] build, with [&], [|] and [~]. *)
Inductive Lookup :=
| requester_eq (user_pk : Z)
| assigned_to_eq (user_pk : Z)
| status_eq (s : Status)
| work_stars_isnull (b : bool)
| request_stars_isnull (b : bool)
| submits_eq (user_pk : Z)
| L_and (a b : Lookup)
| L_or (a b : Lookup)
| L_not (a : Lookup).

Definition isnull {A} (o : option A) : bool :=
  match o with None => true | Some _ => false end.

(** A lookup on a row.  A null [assigned_to] equals no key; [submits] joins
    the [KnockSubmit] rows of the knock. *)
Fixpoint lookup_holds (db : DB) (q : Lookup) (row : Z * Knock) : bool :=
  match q with
  | requester_eq u => requester row.2 =? u
  | assigned_to_eq u =>
      match assigned_to row.2 with Some a => a =? u | None => false end
  | status_eq s => status_eqb (status row.2) s
  | work_stars_isnull b => Bool.eqb (isnull (work_stars row.2)) b
  | request_stars_isnull b => Bool.eqb (isnull (request_stars row.2)) b
  | submits_eq u => bool_decide ((row.1, u) ∈ knock_submits db)
  | L_and a b => lookup_holds db a row && lookup_holds db b row
  | L_or a b => lookup_holds db a row || lookup_holds db b row
  | L_not a => negb (lookup_holds db a row)
  end.

(** [Knock.objects.filter(q)] *)
Definition objects_filter (q : Lookup) (db : DB) : list (Z * Knock) :=
  filter (fun row => lookup_holds db q row) (map_to_list (knocks db)).

(** [order_by('-update_time')]: latest first.  The order among rows of equal
    time is the database's; here it is the one the merge sort leaves. *)
Definition newer (a b : Z * Knock) : Prop := update_time b.2 <= update_time a.2.

#[global] Instance newer_dec : RelDecision newer := fun a b => Z_le_dec _ _.

Definition order_by_update_time_desc (rows : list (Z * Knock)) : list (Z * Knock) :=
  merge_sort newer rows.

(** The context that [homepage] renders. *)
Record HomepageContext := mkHomepage {
  last_updated_knocks : list (Z * Knock);
  my_knocks : list (Z * Knock);
  my_submits : list (Z * Knock)
}.

(** The context that [profile] renders; an average is kept as the exact
    fraction [total / count] of the values that are not null. *)
Record Average := mkAverage { total : Z; count : Z }.

Record ProfileContext := mkProfile {
  user_profile : User;
  profile_knocks : list (Z * Knock);
  request_rating : option Average;
  work_rating : option Average
}.

(** The responses of the read views; [Basic] holds the responses they share
    with the other views. *)
Inductive ReadResponse :=
| Basic (r : HttpResponse)
| RedirectProfile (user_pk : Z)
| RenderHomepage (ctx : HomepageContext)
| RenderProfile (ctx : ProfileContext).

Definition first_filter (user_pk : Z) : Lookup :=
  L_and (L_and (requester_eq user_pk) (L_not (status_eq CLOSED))) (work_stars_isnull true).

Definition second_filter (user_pk : Z) : Lookup :=
  L_and (L_and (assigned_to_eq user_pk) (L_not (status_eq CLOSED)))
        (request_stars_isnull true).

Definition homepage (request : HttpRequest) : M ReadResponse :=
  fun db =>
    let '(my_knocks, my_submits) :=
      match user request with
      | Some u =>
          (objects_filter (L_or (first_filter (user_pk u)) (second_filter (user_pk u))) db,
           objects_filter (L_and (submits_eq (user_pk u)) (status_eq OPEN)) db)
      | None => ([], [])
      end in
    let last_updated_knocks :=
      take 20 (order_by_update_time_desc (map_to_list (knocks db))) in
    (inr (RenderHomepage (mkHomepage last_updated_knocks my_knocks my_submits)), db).

(** [my_profile], under [@login_required]. *)
Definition my_profile (request : HttpRequest) : M ReadResponse :=
  match user request with
  | Some u => ret (RedirectProfile (user_pk u))
  | None => ret (Basic RedirectLogin)
  end.

(** [queryset.aggregate(Avg(field))]: the average of the values that are not
    null, [None] when there is none. *)
Definition Avg (values : list (option Z)) : option Average :=
  match omap id values with
  | [] => None
  | present => Some (mkAverage (foldr Z.add 0 present) (Z.of_nat (length present)))
  end.

Definition profile (request : HttpRequest) (user_pk : Z) : M ReadResponse :=
  do user_profile <~ get_user_or_404 user_pk;
  fun db =>
    let knocks :=
      order_by_update_time_desc
        (objects_filter (L_or (requester_eq user_pk) (assigned_to_eq user_pk)) db) in
    let request_rating :=
      Avg ((fun row => request_stars row.2) <$> objects_filter (requester_eq user_pk) db) in
    let work_rating :=
      Avg ((fun row => work_stars row.2) <$> objects_filter (assigned_to_eq user_pk) db) in
    (inr (RenderProfile (mkProfile user_profile knocks request_rating work_rating)), db).

(* ===================================================================== *)
(** ** The [init] management command *)
(* ===================================================================== *)

Module Init.

(** [django.contrib.auth.models.Group]: a group has a unique name, so the
    table is keyed by it; a row holds the permissions of the group. *)
Record Group := mkGroup { permissions : list string }.

(** What the command acts on: the group table and the standard output. *)
Record State := mkState {
  groups : gmap string Group;
  stdout : list string
}.

Definition print (line : string) (st : State) : State :=
  mkState (groups st) (stdout st ++ [line]).

(** [Group.objects.get_or_create(name=name)]: a new group has no
    permission. *)
Definition get_or_create (name : string) (st : State) : State :=
  match groups st !! name with
  | Some _ => st
  | None => mkState (<[name := mkGroup []]> (groups st)) (stdout st)
  end.

(** [Command.handle] *)
Definition handle (st : State) : State :=
  let st := print "INIT COMMAND START" st in
  let st := get_or_create "Workers" st in
  let st := print "Workers group created" st in
  let st := get_or_create "Test Users" st in
  let st := print "Test Users group created" st in
  print "INIT COMMAND END" st.

End Init.

(* ===================================================================== *)
(** ** Sequences of requests *)
(* ===================================================================== *)

(** One request to one of the views takes the database from [db] to
    [db']. *)
Inductive step {pf : Platform} (db db' : DB) : Prop :=
| step_submit request knock_pk :
    (submit request knock_pk db).2 = db' -> step db db'
| step_assing_to request knock_pk user_pk :
    (assing_to request knock_pk user_pk db).2 = db' -> step db db'
| step_rating request knock_pk :
    (rating request knock_pk db).2 = db' -> step db db'
| step_delete request knock_pk :
    (KnockDeleteView.post request knock_pk db).2 = db' -> step db db'
| step_search request :
    (search request db).2 = db' -> step db db'
| step_homepage request :
    (homepage request db).2 = db' -> step db db'
| step_my_profile request :
    (my_profile request db).2 = db' -> step db db'
| step_profile request user_pk :
    (profile request user_pk db).2 = db' -> step db db'.

(** Nobody has a submission on a knock of their own. *)
Definition no_own_submission (db : DB) : Prop :=
  ∀ i k, knocks db !! i = Some k -> (i, requester k) ∉ knock_submits db.

(** The worker of a knock is one of its submitters. *)
Definition assigned_submitted (db : DB) : Prop :=
  ∀ i k u, knocks db !! i = Some k -> assigned_to k = Some u ->
           (i, u) ∈ knock_submits db.

(** Every rating that is stored lies in [1,5]. *)
Definition stars_in_range (db : DB) : Prop :=
  ∀ i k v, knocks db !! i = Some k ->
           request_stars k = Some v ∨ work_stars k = Some v -> 1 <= v <= 5.

Definition consistent (db : DB) : Prop :=
  no_own_submission db ∧ assigned_submitted db ∧ stars_in_range db.

(** What a request may do to a row that stays: the requester, the title, the
    category and the date stay, and a rating that is set stays as it is. *)
Definition evolves (k k' : Knock) : Prop :=
  requester k' = requester k
  ∧ title k' = title k ∧ category k' = category k ∧ request_date k' = request_date k
  ∧ (∀ v, request_stars k = Some v -> request_stars k' = Some v)
  ∧ (∀ v, work_stars k = Some v -> work_stars k' = Some v).

(** A request that touches the row of key [i] at most: the users and the
    other rows are as before, no row appears, and the row [i] evolves. *)
Definition writes_only_row (i : Z) (db db' : DB) : Prop :=
  users db' = users db
  ∧ (∀ j, j ≠ i -> knocks db' !! j = knocks db !! j)
  ∧ (knocks db !! i = None -> knocks db' !! i = None)
  ∧ (∀ k, knocks db !! i = Some k -> ∃ k', knocks db' !! i = Some k' ∧ evolves k k').

(** An average after one more value [v]. *)
Definition add_rating (v : Z) (a : option Average) : Average :=
  match a with
  | None => mkAverage v 1
  | Some a => mkAverage (total a + v) (count a + 1)
  end.

(** The dates of the calendar that [datetime.date] can hold. *)
Definition valid_date (d : Py.date) : Prop :=
  1 <= Py.year d <= 9999
  ∧ 1 <= Py.month d <= 12
  ∧ 1 <= Py.day d <= Py.days_in_month (Py.year d) (Py.month d).

(** Page [n] of a result set, twenty rows a page. *)
Definition page_of (results : list (Z * Knock)) (n : Z) : list (Z * Knock) :=
  take 20 (drop (Z.to_nat (20 * (n - 1))) results).

(* ===================================================================== *)
(** ** Running the views on a small database *)
(* ===================================================================== *)

Module Sample.

Definition d0 : Py.date := Py.Date 2024 2 29.

Definition alice : User := mkUser 1 true false [].
Definition bob : User := mkUser 2 true false ["main.can_submit_for_knocks"].
Definition carol : User := mkUser 3 true false [].

Definition k_open : Knock :=
  mkKnock 1 None OPEN None None "Fix my Bike" "Repairs" d0 0.
Definition k_reserved : Knock :=
  mkKnock 1 (Some 2) RESERVED None None "Paint the fence" "garden" d0 0.

Definition db0 : DB :=
  mkDB (list_to_map [(1, alice); (2, bob); (3, carol)])
       (list_to_map [(10, k_open); (11, k_reserved)])
       {[ (11, 2); (11, 3) ]}.

(** The same, with a submission of bob on the open knock. *)
Definition db1 : DB :=
  mkDB (users db0) (knocks db0) ({[ (10, 2) ]} ∪ knock_submits db0).

(** Forty-five knocks of one category: three pages of results. *)
Definition lawn (i : nat) : Z * Knock :=
  (100 + Z.of_nat i, mkKnock 1 None OPEN None None "Mow the lawn" "garden" d0 0).

Definition db_many : DB :=
  mkDB (users db0) (list_to_map (lawn <$> seq 1 45)) ∅.

(** The rule of the spec for the status: RESERVED once assigned. *)
Definition spec_status (k : Knock) : Status :=
  match assigned_to k, status k with
  | Some _, OPEN => RESERVED
  | _, s => s
  end.

(** The platform of the examples: the status rule of the spec, the parser of
    the two calendar formats, a database that matches up to the case of
    ASCII letters and refuses a NUL character. *)
Definition platform : Platform :=
  mkPlatform spec_status Py.parse_calendar_date
    (fun field s => Py.contains (Py.lower s) (Py.lower field))
    (fun s => Py.contains (String "000"%char EmptyString) s).

(** [n] zeros. *)
Fixpoint zeros (n : nat) : string :=
  match n with
  | O => EmptyString
  | S n' => String "0" (zeros n')
  end.

Definition as_user (u : User) (post : list (string * string)) : HttpRequest :=
  mkRequest (Some u) ∅ (list_to_map post) 7.

Definition query (get : list (string * string)) : HttpRequest :=
  mkRequest None (list_to_map get) ∅ 7.

End Sample.

(* ===================================================================== *)
(** ** Properties of [rating] *)
(* ===================================================================== *)

(** What "filled in either order" means: [first] then [second] both succeed
    on the knock, and afterwards the two ratings are [v_request] and
    [v_work]. *)
Definition rated_in_order {pf : Platform} (first second : HttpRequest) (knock_pk : Z) (db : DB)
    (v_request v_work : Z) : Prop :=
  ∃ db1 db2 k2,
    rating first knock_pk db = (inr (RedirectKnockDetail knock_pk), db1)
    ∧ rating second knock_pk db1 = (inr (RedirectKnockDetail knock_pk), db2)
    ∧ knocks db2 !! knock_pk = Some k2
    ∧ request_stars k2 = Some v_request
    ∧ work_stars k2 = Some v_work.

(** A rating input that must be refused: the field is missing, or is not
    the text of an integer, or is an integer outside [1,5]. *)
Definition bad_rating_input (rating_value : option string) : Prop :=
  match rating_value with
  | None => True
  | Some raw =>
      match Py.int raw with
      | None => True
      | Some n => n < 1 ∨ 5 < n
      end
  end.

(** The precondition of an assignment in the words of the spec: the actor
    is the requester and the candidate has a submission on the knock. *)
Definition may_assign (db : DB) (actor : User) (knock_pk : Z) (k : Knock)
    (candidate : Z) : Prop :=
  user_pk actor = requester k ∧ (knock_pk, candidate) ∈ knock_submits db.

(** The precondition of a deletion in the words of the spec. *)
Definition may_delete (actor : User) (k : Knock) : Prop :=
  user_pk actor = requester k ∧ (status k = OPEN ∨ status k = RESERVED).

(** The state after a successful [submit]: the submission row is added and
    the knock is saved. *)
Definition submitted {pf : Platform} (t : Z) (knock_pk : Z) (k : Knock) (u : Z) (db : DB) : DB :=
  write_knock knock_pk (saved t k)
    (mkDB (users db) (knocks db) ({[ (knock_pk, u) ]} ∪ knock_submits db)).

(** A query parameter of [search], with the view's default. *)
Definition param (request : HttpRequest) (name : string) : string :=
  default "" (GET request !! name).

(** "Absent or whitespace-only": every character, if any, is white space. *)
Fixpoint whitespace_only (s : string) : bool :=
  match s with
  | EmptyString => true
  | String c s' => Py.isspace c && whitespace_only s'
  end.


(** The database refuses the query: a title or a category that is used as a
    filter is a text it refuses. *)
Definition query_refused {pf : Platform} (request : HttpRequest) : bool :=
  (negb (whitespace_only (param request "title")) && refuses (param request "title"))
  || (negb (whitespace_only (param request "category"))
      && refuses (param request "category")).




Section Properties.

Context {pf : Platform}.

Lemma parse_rating_in_range (raw : string) (v : Z) :
  Py.int raw = Some v -> 1 <= v <= 5 -> parse_rating raw = Some v.
Proof.
  intros Hint Hv. unfold parse_rating. rewrite Hint.
  destruct (v <? 1) eqn:E1; [apply Z.ltb_lt in E1; lia|].
  destruct (v >? 5) eqn:E2; [|reflexivity].
  rewrite Z.gtb_ltb in E2. apply Z.ltb_lt in E2. lia.
Qed.

Lemma parse_rating_Some (raw : string) (v : Z) :
  parse_rating raw = Some v <-> Py.int raw = Some v /\ 1 <= v <= 5.
Proof.
  split; [|intros [H1 H2]; by apply parse_rating_in_range].
  unfold parse_rating. destruct (Py.int raw) as [n|]; [|done].
  destruct (n <? 1) eqn:E1; [done|]. destruct (n >? 5) eqn:E2; [done|].
  intros [= ->]. apply Z.ltb_ge in E1. rewrite Z.gtb_ltb in E2.
  apply Z.ltb_ge in E2. split; [done | lia].
Qed.

(** A literal of 4300 digits is read, leading zeros and all; one more digit
    and [int] raises, so [rating] refuses the value. *)
Example int_digit_limit :
  Py.int (Sample.zeros 4299 +:+ "3") = Some 3
  ∧ Py.int (Sample.zeros 4300 +:+ "3") = None
  ∧ Py.int ("-" +:+ Sample.zeros 4300 +:+ "3") = None
  ∧ parse_rating (Sample.zeros 4300 +:+ "3") = None.
Proof. vm_compute. repeat split. Qed.

(** The three branches of [rating] once the value is accepted. *)
Lemma rating_worker (db : DB) (request : HttpRequest) (actor : User) (knock_pk : Z)
    (k : Knock) (raw : string) (v : Z) :
  knocks db !! knock_pk = Some k ->
  user request = Some actor ->
  POST request !! "rating" = Some raw ->
  parse_rating raw = Some v ->
  assigned_to k = Some (user_pk actor) ->
  rating request knock_pk db =
    match request_stars k with
    | Some _ => (inl (PermissionDenied "Worker already rated this Knock Knock"), db)
    | None => (inr (RedirectKnockDetail knock_pk),
               write_knock knock_pk (saved (time request) (set_request_stars v k)) db)
    end.
Proof.
  intros Hk Hu Hp Hv Ha.
  unfold rating, login_required, rating_view, bind, get_knock_or_404, request_user_pk.
  rewrite Hu, Hk, Hp, Hv, Ha. simpl.
  rewrite bool_decide_eq_true_2 by reflexivity.
  destruct (request_stars k); reflexivity.
Qed.

Lemma rating_requester (db : DB) (request : HttpRequest) (actor : User) (knock_pk : Z)
    (k : Knock) (raw : string) (v w : Z) :
  knocks db !! knock_pk = Some k ->
  user request = Some actor ->
  POST request !! "rating" = Some raw ->
  parse_rating raw = Some v ->
  assigned_to k = Some w ->
  user_pk actor ≠ w ->
  requester k = user_pk actor ->
  rating request knock_pk db =
    match work_stars k with
    | Some _ => (inl (PermissionDenied "Worker already rated this Knock Knock"), db)
    | None => (inr (RedirectKnockDetail knock_pk),
               write_knock knock_pk (saved (time request) (set_work_stars v k)) db)
    end.
Proof.
  intros Hk Hu Hp Hv Ha Hne Hr.
  unfold rating, login_required, rating_view, bind, get_knock_or_404, request_user_pk.
  rewrite Hu, Hk, Hp, Hv, Ha, Hr. simpl.
  rewrite bool_decide_eq_false_2 by congruence.
  rewrite bool_decide_eq_true_2 by reflexivity.
  destruct (work_stars k); reflexivity.
Qed.

Lemma rating_stranger (db : DB) (request : HttpRequest) (actor : User) (knock_pk : Z)
    (k : Knock) (raw : string) (v w : Z) :
  knocks db !! knock_pk = Some k ->
  user request = Some actor ->
  POST request !! "rating" = Some raw ->
  parse_rating raw = Some v ->
  assigned_to k = Some w ->
  user_pk actor ≠ w ->
  user_pk actor ≠ requester k ->
  rating request knock_pk db =
    (inl (PermissionDenied "Only requester and assigned can rate this Knock Knock"), db).
Proof.
  intros Hk Hu Hp Hv Ha Hne Hr.
  unfold rating, login_required, rating_view, bind, get_knock_or_404, request_user_pk.
  rewrite Hu, Hk, Hp, Hv, Ha. simpl.
  rewrite !bool_decide_eq_false_2 by congruence.
  reflexivity.
Qed.

Lemma lookup_write_knock (db : DB) (knock_pk : Z) (k : Knock) :
  knocks (write_knock knock_pk k db) !! knock_pk = Some k.
Proof. unfold write_knock. simpl. apply lookup_insert_eq. Qed.

Lemma lookup_write_knock_ne (db : DB) (i j : Z) (k : Knock) :
  i ≠ j -> knocks (write_knock i k db) !! j = knocks db !! j.
Proof. intros H. unfold write_knock. simpl. by apply lookup_insert_ne. Qed.

Lemma rated_worker_then_requester (db : DB) (req_w req_r : HttpRequest) (uw ur : User)
    (knock_pk : Z) (k : Knock) (raw_w raw_r : string) (v_w v_r : Z) :
  knocks db !! knock_pk = Some k ->
  assigned_to k = Some (user_pk uw) -> requester k = user_pk ur ->
  user_pk ur ≠ user_pk uw ->
  request_stars k = None -> work_stars k = None ->
  user req_w = Some uw -> POST req_w !! "rating" = Some raw_w ->
  parse_rating raw_w = Some v_w ->
  user req_r = Some ur -> POST req_r !! "rating" = Some raw_r ->
  parse_rating raw_r = Some v_r ->
  rated_in_order req_w req_r knock_pk db v_w v_r.
Proof.
  intros Hk Ha Hr Hne Hrs Hws Huw Hpw Hvw Hur Hpr Hvr.
  unfold rated_in_order. eexists _, _, _.
  split.
  { rewrite (rating_worker db req_w uw knock_pk k raw_w v_w) by assumption.
    rewrite Hrs. reflexivity. }
  split.
  { erewrite (rating_requester _ req_r ur knock_pk _ raw_r v_r (user_pk uw));
      [ | apply lookup_write_knock | done | done | done | simpl; done | done | simpl; done ].
    simpl. rewrite Hws. reflexivity. }
  split; [apply lookup_write_knock|]. simpl. done.
Qed.

Lemma rated_requester_then_worker (db : DB) (req_w req_r : HttpRequest) (uw ur : User)
    (knock_pk : Z) (k : Knock) (raw_w raw_r : string) (v_w v_r : Z) :
  knocks db !! knock_pk = Some k ->
  assigned_to k = Some (user_pk uw) -> requester k = user_pk ur ->
  user_pk ur ≠ user_pk uw ->
  request_stars k = None -> work_stars k = None ->
  user req_w = Some uw -> POST req_w !! "rating" = Some raw_w ->
  parse_rating raw_w = Some v_w ->
  user req_r = Some ur -> POST req_r !! "rating" = Some raw_r ->
  parse_rating raw_r = Some v_r ->
  rated_in_order req_r req_w knock_pk db v_w v_r.
Proof.
  intros Hk Ha Hr Hne Hrs Hws Huw Hpw Hvw Hur Hpr Hvr.
  unfold rated_in_order. eexists _, _, _.
  split.
  { rewrite (rating_requester db req_r ur knock_pk k raw_r v_r (user_pk uw)) by assumption.
    rewrite Hws. reflexivity. }
  split.
  { erewrite (rating_worker _ req_w uw knock_pk _ raw_w v_w);
      [ | apply lookup_write_knock | done | done | done | simpl; done ].
    simpl. rewrite Hrs. reflexivity. }
  split; [apply lookup_write_knock|]. simpl. done.
Qed.

(** C1.  On a knock with requester [r] and assigned worker [w], [r ≠ w], and
    a rating value [v] in [1,5]: the worker's rating is refused when
    [request_stars] is set and otherwise stores [v] there; the requester's
    rating is refused when [work_stars] is set and otherwise stores [v]
    there; anybody else is refused; a successful call writes one of the two
    fields and leaves the other as it was; and two accepted ratings, one by
    each party, fill both fields whichever comes first. *)
Theorem rating_by_role (db : DB) (request : HttpRequest) (actor : User) (knock_pk : Z)
    (k : Knock) (raw : string) (v r w : Z) :
  knocks db !! knock_pk = Some k ->
  requester k = r -> assigned_to k = Some w -> r ≠ w ->
  user request = Some actor ->
  POST request !! "rating" = Some raw -> Py.int raw = Some v -> 1 <= v <= 5 ->
  (user_pk actor = w -> is_Some (request_stars k) ->
     ∃ msg, rating request knock_pk db = (inl (PermissionDenied msg), db))
  ∧ (user_pk actor = w -> request_stars k = None ->
     rating request knock_pk db =
       (inr (RedirectKnockDetail knock_pk),
        write_knock knock_pk (saved (time request) (set_request_stars v k)) db))
  ∧ (user_pk actor = r -> is_Some (work_stars k) ->
     ∃ msg, rating request knock_pk db = (inl (PermissionDenied msg), db))
  ∧ (user_pk actor = r -> work_stars k = None ->
     rating request knock_pk db =
       (inr (RedirectKnockDetail knock_pk),
        write_knock knock_pk (saved (time request) (set_work_stars v k)) db))
  ∧ (user_pk actor ≠ w -> user_pk actor ≠ r ->
     rating request knock_pk db =
       (inl (PermissionDenied "Only requester and assigned can rate this Knock Knock"), db))
  ∧ (∀ response db', rating request knock_pk db = (inr response, db') ->
     ∃ k', knocks db' !! knock_pk = Some k'
       ∧ ((request_stars k = None ∧ request_stars k' = Some v ∧ work_stars k' = work_stars k)
          ∨ (work_stars k = None ∧ work_stars k' = Some v
             ∧ request_stars k' = request_stars k)))
  ∧ (∀ (other : HttpRequest) (partner : User) (raw' : string) (v' : Z),
     user other = Some partner ->
     POST other !! "rating" = Some raw' -> Py.int raw' = Some v' -> 1 <= v' <= 5 ->
     request_stars k = None -> work_stars k = None ->
     user_pk actor = w -> user_pk partner = r ->
     rated_in_order request other knock_pk db v v'
     ∧ rated_in_order other request knock_pk db v v').
Proof.
  intros Hk Hr Ha Hne Hu Hp Hint Hv.
  pose proof (parse_rating_in_range raw v Hint Hv) as Hparse.
  repeat split.
  - intros Hw [s Hs]. subst w.
    rewrite (rating_worker db request actor knock_pk k raw v) by assumption.
    rewrite Hs. eauto.
  - intros Hw Hs. subst w.
    rewrite (rating_worker db request actor knock_pk k raw v) by assumption.
    by rewrite Hs.
  - intros Hw [s Hs].
    rewrite (rating_requester db request actor knock_pk k raw v w)
      by (assumption || congruence).
    rewrite Hs. eauto.
  - intros Hw Hs.
    rewrite (rating_requester db request actor knock_pk k raw v w)
      by (assumption || congruence).
    by rewrite Hs.
  - intros H1 H2.
    apply (rating_stranger db request actor knock_pk k raw v w); congruence.
  - intros response db'.
    destruct (decide (user_pk actor = w)) as [Hw|Hw].
    + subst w. rewrite (rating_worker db request actor knock_pk k raw v) by assumption.
      destruct (request_stars k) eqn:Hs; [discriminate|].
      intros [= <- <-]. eexists. split; [apply lookup_write_knock|].
      left. simpl. done.
    + destruct (decide (user_pk actor = r)) as [Hq|Hq].
      * rewrite (rating_requester db request actor knock_pk k raw v w)
          by (assumption || congruence).
        destruct (work_stars k) eqn:Hs; [discriminate|].
        intros [= <- <-]. eexists. split; [apply lookup_write_knock|].
        right. simpl. done.
      * rewrite (rating_stranger db request actor knock_pk k raw v w)
          by (assumption || congruence).
        discriminate.
  - subst w.
    apply (rated_worker_then_requester db request other actor partner knock_pk k raw raw');
      try assumption; try congruence.
    by apply parse_rating_in_range.
  - subst w.
    apply (rated_requester_then_worker db request other actor partner knock_pk k raw raw');
      try assumption; try congruence.
    by apply parse_rating_in_range.
Qed.

Lemma parse_rating_bad (raw : string) :
  bad_rating_input (Some raw) -> parse_rating raw = None.
Proof.
  unfold bad_rating_input, parse_rating.
  destruct (Py.int raw) as [n|]; [|done].
  intros [H|H].
  - apply Z.ltb_lt in H. by rewrite H.
  - apply Z.ltb_lt in H. rewrite Z.gtb_ltb, H. by rewrite orb_true_r.
Qed.

(** C5.  A rating input that is missing, is not an integer or lies outside
    [1,5] is refused for every knock and every actor, whatever the actor's
    role on the knock, and the database (hence both rating fields) stays as
    it was. *)
Theorem rating_rejects_bad_value (db : DB) (request : HttpRequest) (actor : User)
    (knock_pk : Z) (k : Knock) :
  knocks db !! knock_pk = Some k ->
  user request = Some actor ->
  bad_rating_input (POST request !! "rating") ->
  (∃ msg, rating request knock_pk db = (inl (PermissionDenied msg), db))
  ∧ knocks (rating request knock_pk db).2 !! knock_pk = Some k.
Proof.
  intros Hk Hu Hbad.
  assert (∃ msg, rating request knock_pk db = (inl (PermissionDenied msg), db)) as [msg E].
  { unfold rating, login_required, rating_view, bind, get_knock_or_404.
    rewrite Hu, Hk.
    destruct (POST request !! "rating") as [raw|] eqn:Hp.
    - rewrite (parse_rating_bad raw Hbad). eauto.
    - eauto. }
  split; [eauto|]. by rewrite E.
Qed.

(** C8.  While a knock has no assigned worker, a rating with a valid value
    fails for every actor, the requester included: reading the key of the
    absent [assigned_to] raises before either role is tested.  No call of
    [rating], whatever its input, changes the database in that state. *)
Theorem rating_unassigned_fails (db : DB) (request : HttpRequest) (actor : User)
    (knock_pk : Z) (k : Knock) (raw : string) (v : Z) :
  knocks db !! knock_pk = Some k ->
  assigned_to k = None ->
  user request = Some actor ->
  POST request !! "rating" = Some raw -> Py.int raw = Some v -> 1 <= v <= 5 ->
  rating request knock_pk db =
    (inl (AttributeError "'NoneType' object has no attribute 'pk'"), db)
  ∧ ∀ any : HttpRequest,
      (rating any knock_pk db).2 = db
      ∧ ∀ i, (rating any knock_pk db).1 ≠ inr (RedirectKnockDetail i).
Proof.
  intros Hk Ha Hu Hp Hint Hv. split.
  - unfold rating, login_required, rating_view, bind, get_knock_or_404.
    rewrite Hu, Hk, Hp, (parse_rating_in_range raw v Hint Hv), Ha. reflexivity.
  - intros any.
    unfold rating, login_required, rating_view, bind, get_knock_or_404.
    destruct (user any); [|done].
    rewrite Hk, Ha.
    destruct (POST any !! "rating") as [raw'|]; [|done].
    destruct (parse_rating raw'); done.
Qed.

(* ===================================================================== *)
(** ** Properties of [assing_to] *)
(* ===================================================================== *)

(** The view, once the knock and the candidate's user row are found. *)
Lemma assing_to_eq (db : DB) (request : HttpRequest) (actor candidate : User)
    (knock_pk user_pk' : Z) (k : Knock) :
  knocks db !! knock_pk = Some k ->
  users db !! user_pk' = Some candidate ->
  user request = Some actor ->
  assing_to request knock_pk user_pk' db =
    if bool_decide (user_pk actor = requester k) then
      if bool_decide ((knock_pk, user_pk') ∈ knock_submits db) then
        (inr (RedirectKnockDetail knock_pk),
         write_knock knock_pk (saved (time request) (set_assigned_to user_pk' k)) db)
      else (inl (PermissionDenied "Cannot assing if worker didn't submit before"), db)
    else (inl (PermissionDenied "Can assign only to owned Knock Knocks"), db).
Proof.
  intros Hk Hc Hu.
  unfold assing_to, login_required, assing_to_view, bind, get_knock_or_404,
    get_user_or_404, submit_exists, request_user_pk.
  rewrite Hu, Hk, Hc. simpl.
  destruct (decide (user_pk actor = requester k)) as [E|E].
  - rewrite (bool_decide_eq_true_2 (Some (requester k) = Some (user_pk actor)))
      by congruence.
    rewrite (bool_decide_eq_true_2 (user_pk actor = requester k)) by done.
    simpl. destruct (bool_decide ((knock_pk, user_pk') ∈ knock_submits db)); reflexivity.
  - rewrite (bool_decide_eq_false_2 (Some (requester k) = Some (user_pk actor)))
      by congruence.
    rewrite (bool_decide_eq_false_2 (user_pk actor = requester k)) by done.
    reflexivity.
Qed.

(** C2.  For a knock, an actor and a candidate user, [assing_to] succeeds
    exactly when the actor is the requester and the candidate has a
    submission on the knock; a success stores the candidate in
    [assigned_to]; a failure is a [PermissionDenied] that leaves the database,
    and so the knock, unchanged. *)
Theorem assing_to_iff (db : DB) (request : HttpRequest) (actor candidate : User)
    (knock_pk user_pk' : Z) (k : Knock) :
  knocks db !! knock_pk = Some k ->
  users db !! user_pk' = Some candidate ->
  user request = Some actor ->
  ((∃ db', assing_to request knock_pk user_pk' db = (inr (RedirectKnockDetail knock_pk), db'))
     ↔ may_assign db actor knock_pk k user_pk')
  ∧ (may_assign db actor knock_pk k user_pk' ->
     ∃ db' k', assing_to request knock_pk user_pk' db = (inr (RedirectKnockDetail knock_pk), db')
       ∧ knocks db' !! knock_pk = Some k'
       ∧ assigned_to k' = Some user_pk'
       ∧ k' = saved (time request) (set_assigned_to user_pk' k))
  ∧ (¬ may_assign db actor knock_pk k user_pk' ->
     ∃ msg, assing_to request knock_pk user_pk' db = (inl (PermissionDenied msg), db)).
Proof.
  intros Hk Hc Hu.
  rewrite (assing_to_eq db request actor candidate knock_pk user_pk' k Hk Hc Hu).
  unfold may_assign.
  repeat case_bool_decide; (split; [|split]).
  all: try (intros [??]; done).
  all: try (split; [intros [? [=]] | intros [??]; done]).
  - split; [done | eauto].
  - intros _. eexists _, _. split; [reflexivity|].
    split; [apply lookup_write_knock|]. done.
  - intros Hn. exfalso. by apply Hn.
  - eauto.
  - eauto.
Qed.

(** C9.  [assing_to] tests neither the current assignment nor the status:
    on a knock that already has a worker, whoever that is and whatever the
    status of the knock, the requester naming any user who has a submission
    on it succeeds, and the new candidate replaces the old worker in the row
    that is saved. *)
Theorem assing_to_overwrites (db : DB) (request : HttpRequest) (actor candidate : User)
    (knock_pk user_pk' old : Z) (k : Knock) :
  knocks db !! knock_pk = Some k ->
  assigned_to k = Some old ->
  users db !! user_pk' = Some candidate ->
  user request = Some actor ->
  user_pk actor = requester k ->
  (knock_pk, user_pk') ∈ knock_submits db ->
  ∃ db' k', assing_to request knock_pk user_pk' db = (inr (RedirectKnockDetail knock_pk), db')
    ∧ knocks db' !! knock_pk = Some k'
    ∧ assigned_to k' = Some user_pk'
    ∧ k' = saved (time request) (set_assigned_to user_pk' k).
Proof.
  intros Hk Hold Hc Hu Hreq Hsub.
  rewrite (assing_to_eq db request actor candidate knock_pk user_pk' k Hk Hc Hu).
  rewrite !bool_decide_eq_true_2 by done.
  eexists _, _. split; [reflexivity|].
  split; [apply lookup_write_knock|]. done.
Qed.

(* ===================================================================== *)
(** ** Properties of [submit] *)
(* ===================================================================== *)

(** The view behind the two decorators. *)
Lemma submit_eq (db : DB) (request : HttpRequest) (u : User) (knock_pk : Z) (k : Knock) :
  knocks db !! knock_pk = Some k ->
  user request = Some u ->
  submit request knock_pk db =
    if has_perm u "main.can_submit_for_knocks" then
      if bool_decide (user_pk u = requester k) then
        (inl (PermissionDenied "Cannot submit to owned knocks"), db)
      else if bool_decide ((knock_pk, user_pk u) ∈ knock_submits db) then
        (inl (PermissionDenied "User already submitted for this Knock Knock"), db)
      else (inr (RedirectKnockDetail knock_pk),
            submitted (time request) knock_pk k (user_pk u) db)
    else (inr RedirectLogin, db).
Proof.
  intros Hk Hu.
  unfold submit, login_required, permission_required. rewrite Hu.
  destruct (has_perm u "main.can_submit_for_knocks"); [|reflexivity].
  unfold submit_view, bind, get_knock_or_404, submit_exists, request_user_pk.
  rewrite Hk, Hu. simpl.
  destruct (decide (user_pk u = requester k)) as [E|E].
  - rewrite (bool_decide_eq_true_2 (Some (requester k) = Some (user_pk u)))
      by congruence.
    by rewrite (bool_decide_eq_true_2 (user_pk u = requester k)).
  - rewrite (bool_decide_eq_false_2 (Some (requester k) = Some (user_pk u)))
      by congruence.
    rewrite (bool_decide_eq_false_2 (user_pk u = requester k)) by done.
    destruct (bool_decide ((knock_pk, user_pk u) ∈ knock_submits db)); reflexivity.
Qed.

(** C3, amended.  For a knock and a signed-in user [u] who holds the
    permission [main.can_submit_for_knocks]: [submit] is refused when [u] is
    the requester; otherwise, when [u] has no submission on the knock, it
    succeeds and records one, after which every further [submit] of [u] on
    that knock is refused; and when [u] already has one it is refused.  A
    user without the permission is sent to the login page.  Every refusal
    leaves the database unchanged. *)
Theorem submit_guard (db : DB) (request : HttpRequest) (u : User) (knock_pk : Z)
    (k : Knock) :
  knocks db !! knock_pk = Some k ->
  user request = Some u ->
  (has_perm u "main.can_submit_for_knocks" = true ->
     (user_pk u = requester k ->
        submit request knock_pk db
        = (inl (PermissionDenied "Cannot submit to owned knocks"), db))
     ∧ (user_pk u ≠ requester k -> (knock_pk, user_pk u) ∈ knock_submits db ->
        submit request knock_pk db
        = (inl (PermissionDenied "User already submitted for this Knock Knock"), db))
     ∧ (user_pk u ≠ requester k -> (knock_pk, user_pk u) ∉ knock_submits db ->
        ∃ db', submit request knock_pk db = (inr (RedirectKnockDetail knock_pk), db')
          ∧ db' = submitted (time request) knock_pk k (user_pk u) db
          ∧ (knock_pk, user_pk u) ∈ knock_submits db'
          ∧ ∀ again : HttpRequest, user again = Some u ->
              submit again knock_pk db'
              = (inl (PermissionDenied "User already submitted for this Knock Knock"),
                 db')))
  ∧ (has_perm u "main.can_submit_for_knocks" = false ->
     submit request knock_pk db = (inr RedirectLogin, db)).
Proof.
  intros Hk Hu.
  rewrite (submit_eq db request u knock_pk k Hk Hu).
  split; intros Hperm; rewrite Hperm; [|reflexivity].
  split; [|split].
  - intros E. by rewrite bool_decide_eq_true_2.
  - intros E Hin. rewrite bool_decide_eq_false_2 by done.
    by rewrite bool_decide_eq_true_2.
  - intros E Hin. rewrite !bool_decide_eq_false_2 by done.
    eexists. split; [reflexivity|]. split; [reflexivity|].
    assert ((knock_pk, user_pk u)
              ∈ knock_submits (submitted (time request) knock_pk k (user_pk u) db)) as Hin'.
    { unfold submitted, write_knock. simpl. set_solver. }
    split; [exact Hin'|].
    intros again Hagain.
    rewrite (submit_eq (submitted (time request) knock_pk k (user_pk u) db) again u
               knock_pk (saved (time request) k) (lookup_write_knock _ _ _) Hagain).
    rewrite Hperm. simpl.
    rewrite bool_decide_eq_false_2 by done.
    by rewrite bool_decide_eq_true_2.
Qed.

(* ===================================================================== *)
(** ** Properties of [KnockDeleteView] *)
(* ===================================================================== *)

Lemma status_in_open_reserved (s : Status) :
  existsb (status_eqb s) [OPEN; RESERVED] = true <-> s = OPEN ∨ s = RESERVED.
Proof. destruct s; simpl; split; intros H; try done; try (by left); try (by right);
  destruct H; done. Qed.

Lemma test_func_eq (db : DB) (request : HttpRequest) (a : User) (knock_pk : Z) (k : Knock) :
  knocks db !! knock_pk = Some k ->
  user request = Some a ->
  KnockDeleteView.test_func request knock_pk db
  = (inr (bool_decide (user_pk a = requester k)
          && existsb (status_eqb (status k)) [OPEN; RESERVED]), db).
Proof.
  intros Hk Hu.
  unfold KnockDeleteView.test_func, bind, get_knock_or_404, ret, request_user_pk.
  rewrite Hk, Hu. simpl. do 3 f_equal.
  apply bool_decide_ext. split; congruence.
Qed.

Lemma test_func_true_iff (a : User) (k : Knock) :
  bool_decide (user_pk a = requester k)
  && existsb (status_eqb (status k)) [OPEN; RESERVED] = true
  <-> may_delete a k.
Proof.
  unfold may_delete.
  rewrite andb_true_iff, bool_decide_eq_true, status_in_open_reserved. done.
Qed.

(** C4.  For a knock and a signed-in actor, the deletion is permitted
    exactly when the actor is the requester and the status is OPEN or
    RESERVED: then the POST deletes the knock; otherwise it is refused and
    nothing changes, in particular for any other user and for a CLOSED knock
    even when the requester asks. *)
Theorem delete_permitted_iff (db : DB) (request : HttpRequest) (a : User) (knock_pk : Z)
    (k : Knock) :
  knocks db !! knock_pk = Some k ->
  user request = Some a ->
  (KnockDeleteView.test_func request knock_pk db = (inr true, db) ↔ may_delete a k)
  ∧ (KnockDeleteView.test_func request knock_pk db = (inr false, db) ↔ ¬ may_delete a k)
  ∧ (may_delete a k ->
     ∃ db', KnockDeleteView.post request knock_pk db = (inr RedirectHomepage, db')
       ∧ knocks db' !! knock_pk = None)
  ∧ (¬ may_delete a k ->
     ∃ msg, KnockDeleteView.post request knock_pk db = (inl (PermissionDenied msg), db))
  ∧ (user_pk a ≠ requester k -> ¬ may_delete a k)
  ∧ (status k = CLOSED -> ¬ may_delete a k).
Proof.
  intros Hk Hu.
  pose proof (test_func_eq db request a knock_pk k Hk Hu) as Ht.
  pose proof (test_func_true_iff a k) as Hiff.
  destruct (bool_decide (user_pk a = requester k)
            && existsb (status_eqb (status k)) [OPEN; RESERVED]) eqn:Hb.
  - assert (may_delete a k) as Hm by (by apply Hiff).
    split; [by rewrite Ht|]. split; [rewrite Ht; split; [done | tauto]|].
    split.
    { intros _. unfold KnockDeleteView.post, bind. rewrite Hu, Ht. simpl.
      eexists. split; [reflexivity|]. simpl. apply lookup_delete_eq. }
    split; [tauto|].
    unfold may_delete. split; [tauto|]. intros E [_ [H|H]]; congruence.
  - assert (¬ may_delete a k) as Hm by (rewrite <- Hiff; congruence).
    split; [rewrite Ht; split; [done | tauto]|]. split; [by rewrite Ht|].
    split; [tauto|]. split.
    { intros _. unfold KnockDeleteView.post, bind. rewrite Hu, Ht. simpl. eauto. }
    tauto.
Qed.

(* ===================================================================== *)
(** ** Properties of the paginator and of [search] *)
(* ===================================================================== *)

Section Pages.

Variable results : list (Z * Knock).

Local Abbreviation P := (Paginator.Paginator results 20).

Lemma count_nonneg : 0 <= Paginator.count P.
Proof. unfold Paginator.count. lia. Qed.

Lemma num_pages_eq :
  Paginator.num_pages P = Z.max 1 ((Paginator.count P + 19) / 20).
Proof.
  unfold Paginator.num_pages. simpl. rewrite andb_false_r.
  unfold Paginator.ceil_div. pose proof count_nonneg.
  Z.to_euclidean_division_equations. lia.
Qed.

Lemma num_pages_pos : 1 <= Paginator.num_pages P.
Proof. rewrite num_pages_eq. lia. Qed.

Lemma num_pages_covers : Paginator.count P <= 20 * Paginator.num_pages P.
Proof.
  rewrite num_pages_eq. pose proof count_nonneg.
  Z.to_euclidean_division_equations. lia.
Qed.

Lemma validate_in_range (n : Z) :
  1 <= n <= Paginator.num_pages P ->
  Paginator.validate_number P (Paginator.ArgInt n) = inr n.
Proof.
  intros [H1 H2]. unfold Paginator.validate_number.
  destruct (n <? 1) eqn:E1; [apply Z.ltb_lt in E1; lia|].
  destruct (n >? Paginator.num_pages P) eqn:E2; [|reflexivity].
  rewrite Z.gtb_ltb in E2. apply Z.ltb_lt in E2. lia.
Qed.

(** A page in range holds the twenty results that follow the earlier
    pages. *)
Lemma page_in_range (n : Z) :
  1 <= n <= Paginator.num_pages P ->
  Paginator.page P (Paginator.ArgInt n)
  = inr (mkPage (take 20 (drop (Z.to_nat (20 * (n - 1))) results)) n).
Proof.
  intros Hn. unfold Paginator.page. rewrite (validate_in_range n Hn).
  do 2 f_equal. unfold Paginator.slice, Paginator.count. simpl.
  rewrite take_drop_commute.
  replace ((n - 1) * 20) with (20 * (n - 1)) by lia.
  f_equal.
  destruct (20 * (n - 1) + 20 + 0 >=? Z.of_nat (length results)) eqn:E.
  - rewrite Z.geb_leb in E. apply Z.leb_le in E.
    rewrite !take_ge by lia. reflexivity.
  - f_equal. lia.
Qed.

Lemma page_one :
  Paginator.page P (Paginator.ArgInt 1) = inr (mkPage (take 20 results) 1).
Proof.
  rewrite page_in_range by (pose proof num_pages_pos; lia). reflexivity.
Qed.

Lemma page_last :
  Paginator.page P (Paginator.ArgInt (Paginator.num_pages P))
  = inr (mkPage (drop (Z.to_nat (20 * (Paginator.num_pages P - 1))) results)
                (Paginator.num_pages P)).
Proof.
  rewrite page_in_range by (pose proof num_pages_pos; lia).
  do 2 f_equal. apply take_ge. rewrite length_drop.
  pose proof num_pages_covers. pose proof num_pages_pos.
  unfold Paginator.count in *. simpl in *. lia.
Qed.

Lemma validate_beyond (n : Z) :
  Paginator.num_pages P < n ->
  Paginator.validate_number P (Paginator.ArgInt n) = inl EmptyPage.
Proof.
  intros H. pose proof num_pages_pos. unfold Paginator.validate_number.
  destruct (n <? 1) eqn:E1; [reflexivity|].
  destruct (n >? Paginator.num_pages P) eqn:E2.
  - destruct (n =? 1) eqn:E3; [apply Z.eqb_eq in E3; lia | reflexivity].
  - rewrite Z.gtb_ltb in E2. apply Z.ltb_ge in E2. lia.
Qed.

Lemma validate_below (n : Z) :
  n < 1 -> Paginator.validate_number P (Paginator.ArgInt n) = inl EmptyPage.
Proof.
  intros H. unfold Paginator.validate_number.
  apply Z.ltb_lt in H. by rewrite H.
Qed.

(** [search_page] by cases on the [page] parameter. *)
Lemma search_page_not_an_integer (page : option string) :
  match page with Some s => Py.int s = None | None => True end ->
  search_page results page = inr (mkPage (take 20 results) 1).
Proof.
  intros H. unfold search_page. fold P.
  assert (Paginator.page P
            match page with
            | Some s => Paginator.ArgStr s
            | None => Paginator.ArgNone
            end = inl PageNotAnInteger) as ->.
  { unfold Paginator.page, Paginator.validate_number.
    destruct page as [s|]; [rewrite H|]; reflexivity. }
  apply page_one.
Qed.

Lemma page_str (s : string) (n : Z) :
  Py.int s = Some n ->
  Paginator.page P (Paginator.ArgStr s) = Paginator.page P (Paginator.ArgInt n).
Proof.
  intros H. unfold Paginator.page, Paginator.validate_number. by rewrite H.
Qed.

Lemma search_page_in_range (s : string) (n : Z) :
  Py.int s = Some n -> 1 <= n <= Paginator.num_pages P ->
  search_page results (Some s)
  = inr (mkPage (take 20 (drop (Z.to_nat (20 * (n - 1))) results)) n).
Proof.
  intros Hs Hn. unfold search_page. fold P.
  rewrite (page_str s n Hs), (page_in_range n Hn). reflexivity.
Qed.

Lemma search_page_empty (s : string) (n : Z) :
  Py.int s = Some n -> n < 1 ∨ Paginator.num_pages P < n ->
  search_page results (Some s)
  = inr (mkPage (drop (Z.to_nat (20 * (Paginator.num_pages P - 1))) results)
                (Paginator.num_pages P)).
Proof.
  intros Hs Hn. unfold search_page. fold P.
  rewrite (page_str s n Hs).
  assert (Paginator.page P (Paginator.ArgInt n) = inl EmptyPage) as ->.
  { unfold Paginator.page.
    destruct Hn as [Hn|Hn]; [rewrite validate_below | rewrite validate_beyond]; done. }
  apply page_last.
Qed.

(** [search_page] never raises. *)
Lemma search_page_total (page : option string) :
  ∃ p, search_page results page = inr p.
Proof.
  destruct page as [s|].
  - destruct (Py.int s) as [n|] eqn:Hs.
    + destruct (decide (1 <= n <= Paginator.num_pages P)).
      * rewrite (search_page_in_range s n); eauto.
      * rewrite (search_page_empty s n); eauto. lia.
    + rewrite (search_page_not_an_integer (Some s)); eauto.
  - rewrite (search_page_not_an_integer None); eauto.
Qed.

End Pages.

(** [strip] leaves nothing exactly of the strings that are white space
    only. *)
Lemma lstrip_if_head (p : ascii -> bool) (s : string) :
  match Py.lstrip_if p s with
  | EmptyString => True
  | String c _ => p c = false
  end.
Proof.
  induction s as [|c s IH]; simpl; [done|].
  destruct (p c) eqn:E; [exact IH | exact E].
Qed.

Lemma rstrip_if_empty (p : ascii -> bool) (s : string) :
  Py.rstrip_if p s = EmptyString ->
  match s with EmptyString => True | String c _ => p c = true end.
Proof.
  destruct s as [|c s]; simpl; [done|].
  destruct (Py.rstrip_if p s); [|done].
  destruct (p c); done.
Qed.

Lemma lstrip_whitespace_only (s : string) :
  whitespace_only s = true -> Py.lstrip_if Py.isspace s = EmptyString.
Proof.
  induction s as [|c s IH]; simpl; [done|].
  destruct (Py.isspace c); simpl; [exact IH | done].
Qed.

Lemma lstrip_not_whitespace_only (s : string) :
  whitespace_only s = false -> Py.lstrip_if Py.isspace s ≠ EmptyString.
Proof.
  induction s as [|c s IH]; simpl; [done|].
  destruct (Py.isspace c); simpl; [exact IH | done].
Qed.

Lemma truthy_strip (s : string) :
  Py.truthy (Py.strip s) = negb (whitespace_only s).
Proof.
  unfold Py.strip. destruct (whitespace_only s) eqn:E; simpl.
  - by rewrite (lstrip_whitespace_only s E).
  - pose proof (lstrip_not_whitespace_only s E) as Hne.
    pose proof (lstrip_if_head Py.isspace s) as Hhead.
    destruct (Py.rstrip_if Py.isspace (Py.lstrip_if Py.isspace s)) eqn:R; [|done].
    apply rstrip_if_empty in R.
    destruct (Py.lstrip_if Py.isspace s); [done | congruence].
Qed.





Lemma Q_refused_fold (filters : list Q) (q : Q) :
  Q_refused (fold_left Q_and filters q) = Q_refused q || existsb Q_refused filters.
Proof.
  revert q. induction filters as [|f filters IH]; intros q; simpl.
  - by rewrite orb_false_r.
  - rewrite IH. simpl. by rewrite orb_assoc.
Qed.

(** The database refuses the filter that [search] builds exactly when it
    refuses a title or a category that is in use. *)
Lemma search_filters_refused (request : HttpRequest) :
  Q_refused (fold_left Q_and (search_filters request) Q_empty) = query_refused request.
Proof.
  rewrite Q_refused_fold. unfold search_filters, query_refused.
  fold (param request "title"). fold (param request "date").
  fold (param request "category"). rewrite !truthy_strip.
  destruct (whitespace_only (param request "title")),
    (fromisoformat (param request "date")) as [d|],
    (whitespace_only (param request "category")); simpl;
    rewrite ?orb_false_r; reflexivity.
Qed.

Lemma no_filter_not_refused (request : HttpRequest) :
  (0 <? Z.of_nat (length (search_filters request))) = false ->
  query_refused request = false.
Proof.
  unfold search_filters, query_refused.
  fold (param request "title"). fold (param request "date").
  fold (param request "category"). rewrite !truthy_strip.
  destruct (whitespace_only (param request "title")),
    (fromisoformat (param request "date")) as [d|],
    (whitespace_only (param request "category")); simpl; done.
Qed.

Lemma search_results_eq (request : HttpRequest) (db : DB) :
  search_results request db
  = if query_refused request then (inl BackendError, db)
    else (inr (if 0 <? Z.of_nat (length (search_filters request)) then
                 filter (fun row =>
                           Q_holds (fold_left Q_and (search_filters request) Q_empty) row.2)
                        (map_to_list (knocks db))
               else []), db).
Proof.
  unfold search_results.
  destruct (0 <? Z.of_nat (length (search_filters request))) eqn:E.
  - unfold knocks_filter. by rewrite search_filters_refused.
  - by rewrite (no_filter_not_refused request E).
Qed.

(** [search] raises when the database refuses the query; otherwise it
    renders the page of its results that [search_page] picks. *)
Lemma search_eq (request : HttpRequest) (db : DB) :
  (query_refused request = true -> search request db = (inl BackendError, db))
  ∧ (∀ results, search_results request db = (inr results, db) ->
       ∃ page,
         search_page results (GET request !! "page") = inr page
         ∧ search request db
           = (inr (RenderSearch page
                     ("title=" +:+ param request "title" +:+ "&date="
                      +:+ match fromisoformat (param request "date") with
                          | Some d => isoformat d
                          | None => param request "date"
                          end
                      +:+ "&category=" +:+ param request "category")), db)).
Proof.
  split.
  - intros Hr. unfold search, bind. by rewrite search_results_eq, Hr.
  - intros results E.
    destruct (search_page_total results (GET request !! "page")) as [p Hp].
    exists p. split; [exact Hp|].
    unfold search, bind. rewrite E, Hp. reflexivity.
Qed.

Lemma search_results_cases (request : HttpRequest) (db : DB) :
  (query_refused request = true ∧ search_results request db = (inl BackendError, db))
  ∨ (query_refused request = false
     ∧ ∃ results, search_results request db = (inr results, db)).
Proof.
  rewrite search_results_eq.
  destruct (query_refused request); [left | right]; eauto.
Qed.





Lemma search_page_items (results : list (Z * Knock)) (page : option string) (p : Page) :
  search_page results page = inr p ->
  (length (object_list p) <= 20)%nat ∧ ∀ row, row ∈ object_list p -> row ∈ results.
Proof.
  intros E.
  assert (∃ a b, object_list p = take 20 (drop a results) ∨ object_list p = drop b results
                 ∧ (length (drop b results) <= 20)%nat) as (a & b & H).
  { destruct page as [s|].
    - destruct (Py.int s) as [n|] eqn:Hs.
      + destruct (decide (1 <= n <= Paginator.num_pages (Paginator.Paginator results 20))).
        * rewrite (search_page_in_range results s n) in E by done.
          injection E as <-. exists (Z.to_nat (20 * (n - 1))), 0%nat. by left.
        * rewrite (search_page_empty results s n) in E by (done || lia).
          injection E as <-. eexists 0%nat, _. right. split; [reflexivity|].
          rewrite length_drop.
          pose proof (num_pages_covers results). pose proof (num_pages_pos results).
          unfold Paginator.count in *. simpl in *. lia.
      + rewrite (search_page_not_an_integer results (Some s)) in E by done.
        injection E as <-. exists 0%nat, 0%nat. by left.
    - rewrite (search_page_not_an_integer results None) in E by done.
      injection E as <-. exists 0%nat, 0%nat. by left. }
  destruct H as [-> | [-> Hlen]].
  - split; [rewrite length_take; lia|].
    intros row Hrow. by apply subseteq_take, subseteq_drop in Hrow.
  - split; [exact Hlen|]. intros row Hrow. by apply subseteq_drop in Hrow.
Qed.


(** C7.  The results are cut into pages of twenty, and [search] renders the
    page that the [page] parameter asks for: a number within range shows
    that page; a number beyond the last page shows the last page; a [page]
    parameter that is not a number, or is missing, shows page 1. *)
Theorem search_pagination (request : HttpRequest) (db : DB) (results : list (Z * Knock)) :
  search_results request db = (inr results, db) ->
  ∃ page url_params,
    search request db = (inr (RenderSearch page url_params), db)
    ∧ search_page results (GET request !! "page") = inr page
    ∧ (length (object_list page) <= 20)%nat
    ∧ let last := Paginator.num_pages (Paginator.Paginator results 20) in
      last = Z.max 1 ((Z.of_nat (length results) + 19) / 20)
      ∧ (∀ s n, GET request !! "page" = Some s -> Py.int s = Some n ->
           1 <= n <= last ->
           page = mkPage (take 20 (drop (Z.to_nat (20 * (n - 1))) results)) n)
      ∧ (∀ s n, GET request !! "page" = Some s -> Py.int s = Some n ->
           last < n ->
           page = mkPage (take 20 (drop (Z.to_nat (20 * (last - 1))) results)) last)
      ∧ (∀ s, GET request !! "page" = Some s -> Py.int s = None ->
           page = mkPage (take 20 results) 1)
      ∧ (GET request !! "page" = None -> page = mkPage (take 20 results) 1).
Proof.
  intros E.
  destruct (proj2 (search_eq request db) results E) as (page & Hp & Hs).
  exists page. eexists.
  split; [exact Hs|]. split; [exact Hp|].
  split; [apply (search_page_items results _ page Hp)|].
  simpl. split; [apply (num_pages_eq results)|].
  split; [|split; [|split]].
  - intros s n Hg Hint Hn. rewrite Hg in Hp.
    rewrite (search_page_in_range results s n Hint Hn) in Hp. congruence.
  - intros s n Hg Hint Hn. rewrite Hg in Hp.
    rewrite (search_page_empty results s n Hint) in Hp by (by right).
    injection Hp as <-. f_equal. symmetry. apply take_ge. rewrite length_drop.
    pose proof (num_pages_covers results). pose proof (num_pages_pos results).
    unfold Paginator.count in *. simpl in *. lia.
  - intros s Hg Hint. rewrite Hg in Hp.
    rewrite (search_page_not_an_integer results (Some s) Hint) in Hp. congruence.
  - intros Hg. rewrite Hg in Hp.
    rewrite (search_page_not_an_integer results None I) in Hp. congruence.
Qed.

(** Page 9999 of a result set of three pages is page 3, and a [page] that is
    not a number is page 1. *)
Example search_page_three_pages :
  let results := replicate 45 (10, Sample.k_open) in
  search_page results (Some "9999") = inr (mkPage (replicate 5 (10, Sample.k_open)) 3)
  ∧ search_page results (Some "two") = inr (mkPage (replicate 20 (10, Sample.k_open)) 1)
  ∧ search_page results None = inr (mkPage (replicate 20 (10, Sample.k_open)) 1).
Proof. vm_compute. repeat split. Qed.

Lemma search_page_of_nothing (page : option string) :
  search_page [] page = inr (mkPage [] 1).
Proof.
  destruct page as [s|].
  - destruct (Py.int s) as [n|] eqn:Hs.
    + destruct (decide (1 <= n <= 1)) as [Hn|Hn].
      * rewrite (search_page_in_range [] s n Hs)
          by (change (Paginator.num_pages (Paginator.Paginator [] 20)) with 1; lia).
        rewrite drop_nil. simpl. f_equal. f_equal. lia.
      * rewrite (search_page_empty [] s n Hs); [reflexivity|].
        change (Paginator.num_pages (Paginator.Paginator [] 20)) with 1. lia.
    + by rewrite (search_page_not_an_integer [] (Some s)).
  - by rewrite (search_page_not_an_integer [] None).
Qed.

(** C10.  When the title and the category are absent or white space only
    and the date is absent or is one that the parser rejects, no filter
    applies and [search] shows no knock at all, whatever the table holds. *)
Theorem search_without_filters (request : HttpRequest) (db : DB) :
  whitespace_only (param request "title") = true ->
  whitespace_only (param request "category") = true ->
  fromisoformat (param request "date") = None ->
  search_filters request = []
  ∧ search_results request db = (inr [], db)
  ∧ ∃ url_params, search request db = (inr (RenderSearch (mkPage [] 1) url_params), db).
Proof.
  intros Ht Hc Hd.
  assert (search_filters request = []) as Hf.
  { unfold search_filters. fold (param request "title").
    fold (param request "date"). fold (param request "category").
    rewrite !truthy_strip, Ht, Hc, Hd. reflexivity. }
  assert (search_results request db = (inr [], db)) as Hr.
  { unfold search_results. rewrite Hf. reflexivity. }
  split; [exact Hf|]. split; [exact Hr|].
  unfold search, bind. rewrite Hr, search_page_of_nothing. eauto.
Qed.

(* ===================================================================== *)
(** ** What a request writes *)
(* ===================================================================== *)

(** [rating] either changes nothing and does not answer with the redirect
    to the knock, or answers with it and has stored one accepted value in
    one rating field that was empty. *)
Lemma rating_effect (request : HttpRequest) (knock_pk : Z) (db : DB) :
  ((rating request knock_pk db).2 = db
   ∧ (rating request knock_pk db).1 ≠ inr (RedirectKnockDetail knock_pk))
  ∨ ∃ k v a,
      knocks db !! knock_pk = Some k ∧ 1 <= v <= 5 ∧ assigned_to k = Some a
      ∧ (rating request knock_pk db).1 = inr (RedirectKnockDetail knock_pk)
      ∧ ((Some a = request_user_pk request ∧ request_stars k = None
          ∧ (rating request knock_pk db).2
            = write_knock knock_pk (saved (time request) (set_request_stars v k)) db)
         ∨ (Some a ≠ request_user_pk request
            ∧ Some (requester k) = request_user_pk request ∧ work_stars k = None
            ∧ (rating request knock_pk db).2
              = write_knock knock_pk (saved (time request) (set_work_stars v k)) db)).
Proof.
  unfold rating, login_required, rating_view, bind, get_knock_or_404.
  destruct (user request) as [u|] eqn:Hu; [|by left].
  destruct (knocks db !! knock_pk) as [k|] eqn:Hk; [|by left].
  destruct (POST request !! "rating") as [raw|]; [|by left].
  destruct (parse_rating raw) as [v|] eqn:Hv; [|by left].
  apply parse_rating_Some in Hv as [_ Hv].
  destruct (assigned_to k) as [a|] eqn:Ha; [|by left].
  case_bool_decide as Hw.
  - destruct (request_stars k) eqn:Hs; [by left|].
    right. exists k, v, a. do 4 (split; [done|]). by left.
  - case_bool_decide as Hr; [|by left].
    destruct (work_stars k) eqn:Hs; [by left|].
    right. exists k, v, a. do 4 (split; [done|]). by right.
Qed.

(** [assing_to] either changes nothing, or succeeds and has stored a
    submitter of the knock as its worker, at the requester's demand. *)
Lemma assing_to_effect (request : HttpRequest) (knock_pk user_pk' : Z) (db : DB) :
  ((assing_to request knock_pk user_pk' db).2 = db
   ∧ (assing_to request knock_pk user_pk' db).1 ≠ inr (RedirectKnockDetail knock_pk))
  ∨ ∃ k,
      knocks db !! knock_pk = Some k
      ∧ is_Some (users db !! user_pk')
      ∧ Some (requester k) = request_user_pk request
      ∧ (knock_pk, user_pk') ∈ knock_submits db
      ∧ (assing_to request knock_pk user_pk' db).1 = inr (RedirectKnockDetail knock_pk)
      ∧ (assing_to request knock_pk user_pk' db).2
        = write_knock knock_pk (saved (time request) (set_assigned_to user_pk' k)) db.
Proof.
  unfold assing_to, login_required, assing_to_view, bind, get_knock_or_404,
    get_user_or_404, submit_exists.
  destruct (user request) as [u|] eqn:Hu; [|by left].
  destruct (knocks db !! knock_pk) as [k|] eqn:Hk; [|by left].
  destruct (users db !! user_pk') as [c|] eqn:Hc; [|by left].
  case_bool_decide as Hr; simpl; [|by left].
  case_bool_decide as Hs; simpl; [|by left].
  right. exists k. repeat split; done.
Qed.

(** [submit] either changes nothing, or succeeds and has recorded the first
    submission of a user who is not the requester. *)
Lemma submit_effect (request : HttpRequest) (knock_pk : Z) (db : DB) :
  ((submit request knock_pk db).2 = db
   ∧ (submit request knock_pk db).1 ≠ inr (RedirectKnockDetail knock_pk))
  ∨ ∃ k u,
      knocks db !! knock_pk = Some k
      ∧ user request = Some u
      ∧ has_perm u "main.can_submit_for_knocks" = true
      ∧ user_pk u ≠ requester k
      ∧ ((knock_pk, user_pk u) ∉ knock_submits db)
      ∧ (submit request knock_pk db).1 = inr (RedirectKnockDetail knock_pk)
      ∧ (submit request knock_pk db).2 = submitted (time request) knock_pk k (user_pk u) db.
Proof.
  destruct (user request) as [u|] eqn:Hu;
    [|left; unfold submit, login_required; by rewrite Hu].
  destruct (knocks db !! knock_pk) as [k|] eqn:Hk.
  - rewrite (submit_eq db request u knock_pk k Hk Hu).
    destruct (has_perm u "main.can_submit_for_knocks") eqn:Hp; [|by left].
    case_bool_decide as Hr; [by left|].
    case_bool_decide as Hs; [by left|].
    right. exists k, u. repeat split; done.
  - left. unfold submit, login_required, permission_required, submit_view, bind,
      get_knock_or_404.
    rewrite Hu. destruct (has_perm u "main.can_submit_for_knocks"); [|done].
    by rewrite Hk.
Qed.

(** The POST of [KnockDeleteView] either changes nothing, or removes the
    knock at its requester's demand. *)
Lemma delete_effect (request : HttpRequest) (knock_pk : Z) (db : DB) :
  ((KnockDeleteView.post request knock_pk db).2 = db
   ∧ (KnockDeleteView.post request knock_pk db).1 ≠ inr RedirectHomepage)
  ∨ ∃ k,
      knocks db !! knock_pk = Some k
      ∧ Some (requester k) = request_user_pk request
      ∧ status k ≠ CLOSED
      ∧ (KnockDeleteView.post request knock_pk db).1 = inr RedirectHomepage
      ∧ (KnockDeleteView.post request knock_pk db).2
        = mkDB (users db) (base.delete knock_pk (knocks db))
               (filter (fun s => s.1 ≠ knock_pk) (knock_submits db)).
Proof.
  unfold KnockDeleteView.post, KnockDeleteView.test_func, KnockDeleteView.delete,
    bind, get_knock_or_404, ret.
  destruct (user request) as [u|] eqn:Hu; [|by left].
  destruct (knocks db !! knock_pk) as [k|] eqn:Hk; [|by left].
  case_bool_decide as Hr; simpl; [|by left].
  destruct (status k) eqn:Hs; simpl; try (by left).
  - right. exists k. rewrite Hs. repeat split; done.
  - right. exists k. rewrite Hs. repeat split; done.
Qed.

Lemma read_views_effect (request : HttpRequest) (user_pk' : Z) (db : DB) :
  (search request db).2 = db
  ∧ (homepage request db).2 = db
  ∧ (my_profile request db).2 = db
  ∧ (profile request user_pk' db).2 = db.
Proof.
  split.
  { destruct (search_results_cases request db) as [[Hr _] | (_ & results & E)].
    - by rewrite (proj1 (search_eq request db) Hr).
    - by destruct (proj2 (search_eq request db) results E) as (page & _ & ->). }
  split; [unfold homepage; by destruct (user request)|].
  split; [unfold my_profile; by destruct (user request)|].
  unfold profile, bind, get_user_or_404. by destruct (users db !! user_pk').
Qed.

(** X1.  A request without a signed-in user is sent to the login page by
    [submit], [assing_to], [rating], the deletion and [my_profile], whether
    or not the knock exists, and the database stays as it was. *)
Theorem anonymous_is_sent_to_login (request : HttpRequest) (knock_pk user_pk' : Z)
    (db : DB) :
  user request = None ->
  submit request knock_pk db = (inr RedirectLogin, db)
  ∧ assing_to request knock_pk user_pk' db = (inr RedirectLogin, db)
  ∧ rating request knock_pk db = (inr RedirectLogin, db)
  ∧ KnockDeleteView.post request knock_pk db = (inr RedirectLogin, db)
  ∧ my_profile request db = (inr (Basic RedirectLogin), db).
Proof.
  intros Hu.
  unfold submit, assing_to, rating, login_required, KnockDeleteView.post, my_profile.
  rewrite Hu. done.
Qed.

Lemma knock_404 (request : HttpRequest) (u : User) (knock_pk user_pk' : Z) (db : DB) :
  user request = Some u ->
  knocks db !! knock_pk = None ->
  rating request knock_pk db = (inl Http404, db)
  ∧ assing_to request knock_pk user_pk' db = (inl Http404, db)
  ∧ KnockDeleteView.post request knock_pk db = (inl Http404, db)
  ∧ (has_perm u "main.can_submit_for_knocks" = true ->
     submit request knock_pk db = (inl Http404, db)).
Proof.
  intros Hu Hk.
  unfold rating, assing_to, submit, login_required, permission_required, rating_view,
    assing_to_view, submit_view, KnockDeleteView.post, KnockDeleteView.test_func,
    bind, get_knock_or_404.
  rewrite Hu, Hk. repeat split. intros Hp. rewrite Hp. by rewrite Hk.
Qed.

(** X2.  For a signed-in user, a knock that does not exist gives [Http404]
    in [rating] (before the rating value is looked at), in [assing_to]
    (before the candidate is looked up), in the deletion, and in [submit]
    when the user holds the permission; nothing is written. *)
Theorem missing_knock_is_404 (request : HttpRequest) (u : User) (knock_pk user_pk' : Z)
    (db : DB) :
  user request = Some u ->
  knocks db !! knock_pk = None ->
  rating request knock_pk db = (inl Http404, db)
  ∧ assing_to request knock_pk user_pk' db = (inl Http404, db)
  ∧ KnockDeleteView.post request knock_pk db = (inl Http404, db)
  ∧ (has_perm u "main.can_submit_for_knocks" = true ->
     submit request knock_pk db = (inl Http404, db)).
Proof. apply knock_404. Qed.

(** X3.  In [assing_to] the candidate is looked up before the actor's right
    is tested: on an existing knock, a candidate key without a user row
    gives [Http404] to every signed-in actor, owner or not. *)
Theorem assing_to_unknown_candidate (request : HttpRequest) (actor : User)
    (knock_pk user_pk' : Z) (k : Knock) (db : DB) :
  user request = Some actor ->
  knocks db !! knock_pk = Some k ->
  users db !! user_pk' = None ->
  assing_to request knock_pk user_pk' db = (inl Http404, db).
Proof.
  intros Hu Hk Hc.
  unfold assing_to, login_required, assing_to_view, bind, get_knock_or_404,
    get_user_or_404.
  by rewrite Hu, Hk, Hc.
Qed.

Lemma evolves_refl (k : Knock) : evolves k k.
Proof. repeat split; auto. Qed.

Lemma evolves_trans (k1 k2 k3 : Knock) : evolves k1 k2 -> evolves k2 k3 -> evolves k1 k3.
Proof.
  intros (A1 & A2 & A3 & A4 & A5 & A6) (B1 & B2 & B3 & B4 & B5 & B6).
  repeat split; try congruence; auto.
Qed.

Lemma writes_only_row_refl (i : Z) (db : DB) : writes_only_row i db db.
Proof. repeat split; auto. intros k Hk. exists k. split; [done | apply evolves_refl]. Qed.

Lemma writes_only_row_write (i : Z) (k k' : Knock) (db : DB) :
  knocks db !! i = Some k -> evolves k k' -> writes_only_row i db (write_knock i k' db).
Proof.
  intros Hk He. split; [done|]. split; [|split].
  - intros j Hj. by apply lookup_write_knock_ne.
  - congruence.
  - intros k0 Hk0. exists k'. split; [apply lookup_write_knock | congruence].
Qed.

Lemma views_write_one_row (request : HttpRequest) (knock_pk user_pk' : Z) (db : DB) :
  (writes_only_row knock_pk db (rating request knock_pk db).2
   ∧ knock_submits (rating request knock_pk db).2 = knock_submits db)
  ∧ (writes_only_row knock_pk db (assing_to request knock_pk user_pk' db).2
     ∧ knock_submits (assing_to request knock_pk user_pk' db).2 = knock_submits db)
  ∧ (writes_only_row knock_pk db (submit request knock_pk db).2
     ∧ knock_submits db ⊆ knock_submits (submit request knock_pk db).2
     ∧ ∀ s, s ∈ knock_submits (submit request knock_pk db).2 ->
            s ∈ knock_submits db ∨ Some s.2 = request_user_pk request ∧ s.1 = knock_pk).
Proof.
  split; [|split].
  - destruct (rating_effect request knock_pk db)
      as [[-> _] | (k & v & a & Hk & Hv & Ha & _ & [(_ & Hs & ->) | (_ & _ & Hs & ->)])].
    + split; [apply writes_only_row_refl | done].
    + split; [|done]. apply (writes_only_row_write _ k); [done|].
      repeat split; simpl; auto. congruence.
    + split; [|done]. apply (writes_only_row_write _ k); [done|].
      repeat split; simpl; auto. congruence.
  - destruct (assing_to_effect request knock_pk user_pk' db)
      as [[-> _] | (k & Hk & _ & _ & _ & _ & ->)].
    + split; [apply writes_only_row_refl | done].
    + split; [|done]. apply (writes_only_row_write _ k); [done|].
      repeat split; simpl; auto.
  - destruct (submit_effect request knock_pk db)
      as [[-> _] | (k & u & Hk & Hu & _ & _ & _ & _ & ->)].
    + split; [apply writes_only_row_refl|]. split; [done | auto].
    + split; [|split].
      * unfold submitted.
        apply (writes_only_row_write knock_pk k (saved (time request) k)
                 (mkDB (users db) (knocks db) ({[(knock_pk, user_pk u)]} ∪ knock_submits db)));
          [done | repeat split; simpl; auto].
      * unfold submitted, write_knock. simpl. set_solver.
      * intros s. unfold submitted, write_knock, request_user_pk. simpl.
        rewrite Hu. simpl. rewrite elem_of_union, elem_of_singleton.
        intros [-> | Hs]; [right | left]; done.
Qed.

(** X4.  A request to [rating], [assing_to] or [submit] writes one row at
    most, that of the knock it names: the user table and every other knock
    are as before, no knock appears, and in that row the requester, the
    title, the category, the date and every rating already set are kept.
    [rating] and [assing_to] leave the submissions alone; [submit] removes
    none and adds at most the pair of the knock and the signed-in user. *)
Theorem write_views_frame (request : HttpRequest) (knock_pk user_pk' : Z) (db : DB) :
  (writes_only_row knock_pk db (rating request knock_pk db).2
   ∧ knock_submits (rating request knock_pk db).2 = knock_submits db)
  ∧ (writes_only_row knock_pk db (assing_to request knock_pk user_pk' db).2
     ∧ knock_submits (assing_to request knock_pk user_pk' db).2 = knock_submits db)
  ∧ (writes_only_row knock_pk db (submit request knock_pk db).2
     ∧ knock_submits db ⊆ knock_submits (submit request knock_pk db).2
     ∧ ∀ s, s ∈ knock_submits (submit request knock_pk db).2 ->
            s ∈ knock_submits db ∨ Some s.2 = request_user_pk request ∧ s.1 = knock_pk).
Proof. apply views_write_one_row. Qed.

(* ===================================================================== *)
(** ** Invariants along sequences of requests *)
(* ===================================================================== *)

Lemma writes_only_row_back (j i : Z) (db db' : DB) (k' : Knock) :
  writes_only_row j db db' ->
  knocks db' !! i = Some k' ->
  ∃ k, knocks db !! i = Some k ∧ evolves k k'.
Proof.
  intros (_ & Hother & Hnone & Hrow) Hk'.
  destruct (decide (i = j)) as [->|Hne].
  - destruct (knocks db !! j) as [k|] eqn:Hk.
    + destruct (Hrow k eq_refl) as (k'' & Hk'' & He).
      exists k. split; [done|]. congruence.
    + rewrite Hnone in Hk'; done.
  - rewrite Hother in Hk' by done. exists k'. split; [done | apply evolves_refl].
Qed.

Lemma step_row (db db' : DB) (i : Z) (k' : Knock) :
  step db db' ->
  knocks db' !! i = Some k' ->
  ∃ k, knocks db !! i = Some k ∧ evolves k k'.
Proof.
  intros Hstep Hk'.
  assert (∀ k0, knocks db !! i = Some k0 -> ∃ k, knocks db !! i = Some k ∧ evolves k k0)
    as Hsame by (intros k0 ?; exists k0; split; [done | apply evolves_refl]).
  destruct Hstep as [request knock_pk E | request knock_pk user_pk' E
                    | request knock_pk E | request knock_pk E | request E | request E
                    | request E | request user_pk' E]; subst db'.
  - eapply writes_only_row_back; [|exact Hk'].
    apply (views_write_one_row request knock_pk 0 db).
  - eapply writes_only_row_back; [|exact Hk'].
    apply (views_write_one_row request knock_pk user_pk' db).
  - eapply writes_only_row_back; [|exact Hk'].
    apply (views_write_one_row request knock_pk 0 db).
  - destruct (delete_effect request knock_pk db) as [[E _] | (k & _ & _ & _ & _ & E)];
      rewrite E in Hk'; [by apply Hsame|].
    simpl in Hk'. apply lookup_delete_Some in Hk' as [_ Hk']. by apply Hsame.
  - rewrite (proj1 (read_views_effect request 0 db)) in Hk'. by apply Hsame.
  - rewrite (proj1 (proj2 (read_views_effect request 0 db))) in Hk'. by apply Hsame.
  - rewrite (proj1 (proj2 (proj2 (read_views_effect request 0 db)))) in Hk'.
    by apply Hsame.
  - rewrite (proj2 (proj2 (proj2 (read_views_effect request user_pk' db)))) in Hk'.
    by apply Hsame.
Qed.

(** X5.  Along any sequence of requests to [submit], [assing_to], [rating],
    the deletion, [search], [homepage], [my_profile] and [profile], a knock
    found at the end was there from the start, with the same requester,
    title, category and date, and every rating that was set at the start
    still has the value it had: ratings are written once. *)
Theorem ratings_are_written_once (db db' : DB) (i : Z) (k' : Knock) :
  rtc step db db' ->
  knocks db' !! i = Some k' ->
  ∃ k, knocks db !! i = Some k ∧ evolves k k'.
Proof.
  intros Hrun. revert k'.
  induction Hrun as [db | db db1 db' Hstep Hrun IH]; intros k' Hk'.
  - exists k'. split; [done | apply evolves_refl].
  - destruct (IH k' Hk') as (k1 & Hk1 & He1).
    destruct (step_row db db1 i k1 Hstep Hk1) as (k & Hk & He).
    exists k. split; [done|]. by apply (evolves_trans k k1 k').
Qed.

Lemma consistent_write (i : Z) (k k' : Knock) (db : DB) :
  knocks db !! i = Some k ->
  requester k' = requester k ->
  (∀ u, assigned_to k' = Some u -> (i, u) ∈ knock_submits db) ->
  (∀ v, request_stars k' = Some v ∨ work_stars k' = Some v -> 1 <= v <= 5) ->
  consistent db -> consistent (write_knock i k' db).
Proof.
  intros Hk Hreq Hass Hstars (Hown & Hsub & Hrange).
  split; [|split].
  - intros j kj Hj. simpl.
    destruct (decide (j = i)) as [->|Hne].
    + rewrite lookup_write_knock in Hj. injection Hj as <-. rewrite Hreq. by apply Hown.
    + rewrite lookup_write_knock_ne in Hj by done. by apply Hown.
  - intros j kj u Hj Hu. simpl.
    destruct (decide (j = i)) as [->|Hne].
    + rewrite lookup_write_knock in Hj. injection Hj as <-. by apply Hass.
    + rewrite lookup_write_knock_ne in Hj by done. by apply (Hsub j kj).
  - intros j kj v Hj Hv.
    destruct (decide (j = i)) as [->|Hne].
    + rewrite lookup_write_knock in Hj. injection Hj as <-. by apply Hstars.
    + rewrite lookup_write_knock_ne in Hj by done. by apply (Hrange j kj).
Qed.

Lemma consistent_add_submission (i u : Z) (k : Knock) (db : DB) :
  knocks db !! i = Some k -> u ≠ requester k ->
  consistent db ->
  consistent (mkDB (users db) (knocks db) ({[ (i, u) ]} ∪ knock_submits db)).
Proof.
  intros Hk Hu (Hown & Hsub & Hrange). split; [|split].
  - intros j kj Hj. simpl in *. rewrite elem_of_union, elem_of_singleton.
    intros [[= -> E] | Hin]; [congruence | by apply (Hown j kj)].
  - intros j kj w Hj Hw. simpl in *. rewrite elem_of_union. right. by apply (Hsub j kj).
  - exact Hrange.
Qed.

Lemma consistent_delete (i : Z) (db : DB) :
  consistent db ->
  consistent (mkDB (users db) (base.delete i (knocks db))
                   (filter (fun s => s.1 ≠ i) (knock_submits db))).
Proof.
  intros (Hown & Hsub & Hrange). split; [|split].
  - intros j kj Hj. simpl in *. apply lookup_delete_Some in Hj as [Hne Hj].
    rewrite elem_of_filter. intros [_ Hin]. by apply (Hown j kj).
  - intros j kj w Hj Hw. simpl in *. apply lookup_delete_Some in Hj as [Hne Hj].
    rewrite elem_of_filter. split; [simpl; congruence | by apply (Hsub j kj)].
  - intros j kj v Hj Hv. simpl in *. apply lookup_delete_Some in Hj as [Hne Hj].
    by apply (Hrange j kj).
Qed.

Lemma consistent_step (db db' : DB) : step db db' -> consistent db -> consistent db'.
Proof.
  intros Hstep Hc.
  destruct Hstep as [request knock_pk E | request knock_pk user_pk' E
                    | request knock_pk E | request knock_pk E | request E | request E
                    | request E | request user_pk' E]; subst db'.
  - destruct (submit_effect request knock_pk db)
      as [[-> _] | (k & u & Hk & Hu & _ & Hne & _ & _ & ->)]; [done|].
    unfold submitted.
    pose proof (consistent_add_submission knock_pk (user_pk u) k db Hk Hne Hc) as Hc'.
    destruct Hc as (Hown & Hsub & Hrange).
    apply (consistent_write knock_pk k); simpl; try done.
    + intros w Hw. rewrite elem_of_union. right. by apply (Hsub knock_pk k).
    + intros v Hv. by apply (Hrange knock_pk k).
  - destruct (assing_to_effect request knock_pk user_pk' db)
      as [[-> _] | (k & Hk & _ & _ & Hin & _ & ->)]; [done|].
    pose proof Hc as (Hown & Hsub & Hrange).
    apply (consistent_write knock_pk k); simpl; try done.
    + by intros w [= <-].
    + intros v Hv. by apply (Hrange knock_pk k).
  - destruct (rating_effect request knock_pk db)
      as [[-> _] | (k & v & a & Hk & Hv & Ha & _ & [(_ & Hs & ->) | (_ & _ & Hs & ->)])];
      [done | |]; pose proof Hc as (Hown & Hsub & Hrange).
    + apply (consistent_write knock_pk k); simpl; try done.
      * intros w Hw. by apply (Hsub knock_pk k).
      * intros v' [[= <-] | Hw]; [done|]. apply (Hrange knock_pk k v'); auto.
    + apply (consistent_write knock_pk k); simpl; try done.
      * intros w Hw. by apply (Hsub knock_pk k).
      * intros v' [Hw | [= <-]]; [|done]. apply (Hrange knock_pk k v'); auto.
  - destruct (delete_effect request knock_pk db) as [[-> _] | (k & _ & _ & _ & _ & ->)];
      [done | by apply consistent_delete].
  - by rewrite (proj1 (read_views_effect request 0 db)).
  - by rewrite (proj1 (proj2 (read_views_effect request 0 db))).
  - by rewrite (proj1 (proj2 (proj2 (read_views_effect request 0 db)))).
  - by rewrite (proj2 (proj2 (proj2 (read_views_effect request user_pk' db)))).
Qed.

(** X6.  The views keep the database consistent: if nobody has a submission
    on a knock of their own, every worker is a submitter of their knock and
    every stored rating lies in [1,5], the same holds after any sequence of
    requests; in particular the worker of a knock is never its requester. *)
Theorem views_keep_consistency (db db' : DB) :
  rtc step db db' ->
  consistent db ->
  consistent db'
  ∧ ∀ i k w, knocks db' !! i = Some k -> assigned_to k = Some w -> w ≠ requester k.
Proof.
  intros Hrun Hc.
  assert (consistent db') as Hc'.
  { induction Hrun as [db | db db1 db' Hstep Hrun IH]; [done|].
    apply IH. by apply (consistent_step db db1). }
  split; [exact Hc'|].
  destruct Hc' as (Hown & Hsub & _).
  intros i k w Hk Hw ->. apply (Hown i k Hk). by apply (Hsub i k).
Qed.

(* ===================================================================== *)
(** ** How the views compose *)
(* ===================================================================== *)

(** X7.  A submission is what opens the way to an assignment: the requester
    cannot assign a user who has not submitted, and right after that user's
    successful [submit] the same [assing_to] succeeds and makes them the
    worker. *)
Theorem submit_then_assign (db : DB) (req_u req_r : HttpRequest) (u r row : User)
    (knock_pk : Z) (k : Knock) :
  knocks db !! knock_pk = Some k ->
  users db !! user_pk u = Some row ->
  user req_u = Some u ->
  has_perm u "main.can_submit_for_knocks" = true ->
  user_pk u ≠ requester k ->
  (knock_pk, user_pk u) ∉ knock_submits db ->
  user req_r = Some r ->
  user_pk r = requester k ->
  assing_to req_r knock_pk (user_pk u) db
  = (inl (PermissionDenied "Cannot assing if worker didn't submit before"), db)
  ∧ ∃ db1 db2 k2,
      submit req_u knock_pk db = (inr (RedirectKnockDetail knock_pk), db1)
      ∧ assing_to req_r knock_pk (user_pk u) db1 = (inr (RedirectKnockDetail knock_pk), db2)
      ∧ knocks db2 !! knock_pk = Some k2
      ∧ assigned_to k2 = Some (user_pk u).
Proof.
  intros Hk Hrow Hu Hperm Hne Hnot Hr Hreq. split.
  - rewrite (assing_to_eq db req_r r row knock_pk (user_pk u) k Hk Hrow Hr).
    rewrite bool_decide_eq_true_2 by done. by rewrite bool_decide_eq_false_2.
  - eexists _, _, _. split.
    { rewrite (submit_eq db req_u u knock_pk k Hk Hu), Hperm.
      rewrite !bool_decide_eq_false_2 by done. reflexivity. }
    split.
    { rewrite (assing_to_eq (submitted (time req_u) knock_pk k (user_pk u) db) req_r r row
                 knock_pk (user_pk u) (saved (time req_u) k)
                 (lookup_write_knock _ _ _) Hrow Hr).
      rewrite bool_decide_eq_true_2 by done.
      rewrite bool_decide_eq_true_2; [reflexivity|].
      unfold submitted, write_knock. simpl. set_solver. }
    split; [apply lookup_write_knock | done].
Qed.

(** X8.  An assignment is what opens the way to the ratings: right after a
    successful [assing_to] of a candidate, that candidate's rating with an
    accepted value is stored in [request_stars] when none was stored
    before. *)
Theorem assign_then_rate (db : DB) (req_r req_c : HttpRequest) (r c row : User)
    (knock_pk : Z) (k : Knock) (raw : string) (v : Z) :
  knocks db !! knock_pk = Some k ->
  users db !! user_pk c = Some row ->
  user req_r = Some r ->
  user_pk r = requester k ->
  (knock_pk, user_pk c) ∈ knock_submits db ->
  request_stars k = None ->
  user req_c = Some c ->
  POST req_c !! "rating" = Some raw ->
  parse_rating raw = Some v ->
  ∃ db1 db2 k2,
    assing_to req_r knock_pk (user_pk c) db = (inr (RedirectKnockDetail knock_pk), db1)
    ∧ rating req_c knock_pk db1 = (inr (RedirectKnockDetail knock_pk), db2)
    ∧ knocks db2 !! knock_pk = Some k2
    ∧ assigned_to k2 = Some (user_pk c)
    ∧ request_stars k2 = Some v.
Proof.
  intros Hk Hrow Hr Hreq Hin Hs Hc Hp Hv.
  eexists _, _, _. split.
  { rewrite (assing_to_eq db req_r r row knock_pk (user_pk c) k Hk Hrow Hr).
    rewrite !bool_decide_eq_true_2 by done. reflexivity. }
  split.
  { erewrite (rating_worker _ req_c c knock_pk _ raw v);
      [ | apply lookup_write_knock | done | done | done | simpl; done ].
    simpl. rewrite Hs. reflexivity. }
  split; [apply lookup_write_knock | done].
Qed.

(** X9.  A rating outlives a change of worker: when the worker has rated
    and the requester then assigns another submitter, the new worker's
    rating is refused as already given, and the former worker is no longer
    allowed to rate at all; the stored rating stays. *)
Theorem reassign_after_rating (db : DB) (req_r req_new req_old : HttpRequest)
    (r new old row : User) (knock_pk : Z) (k : Knock) (s : Z) (raw raw' : string)
    (v v' : Z) :
  knocks db !! knock_pk = Some k ->
  assigned_to k = Some (user_pk old) ->
  request_stars k = Some s ->
  users db !! user_pk new = Some row ->
  (knock_pk, user_pk new) ∈ knock_submits db ->
  user req_r = Some r -> user_pk r = requester k ->
  user req_new = Some new -> POST req_new !! "rating" = Some raw ->
  parse_rating raw = Some v ->
  user req_old = Some old -> POST req_old !! "rating" = Some raw' ->
  parse_rating raw' = Some v' ->
  user_pk old ≠ user_pk new -> user_pk old ≠ requester k ->
  ∃ db1 k1,
    assing_to req_r knock_pk (user_pk new) db = (inr (RedirectKnockDetail knock_pk), db1)
    ∧ knocks db1 !! knock_pk = Some k1
    ∧ request_stars k1 = Some s
    ∧ rating req_new knock_pk db1
      = (inl (PermissionDenied "Worker already rated this Knock Knock"), db1)
    ∧ rating req_old knock_pk db1
      = (inl (PermissionDenied "Only requester and assigned can rate this Knock Knock"),
         db1).
Proof.
  intros Hk Ha Hs Hrow Hin Hr Hreq Hnew Hp Hv Hold Hp' Hv' Hne Hne'.
  eexists _, _. split.
  { rewrite (assing_to_eq db req_r r row knock_pk (user_pk new) k Hk Hrow Hr).
    rewrite !bool_decide_eq_true_2 by done. reflexivity. }
  split; [apply lookup_write_knock|]. split; [done|]. split.
  - erewrite (rating_worker _ req_new new knock_pk _ raw v);
      [ | apply lookup_write_knock | done | done | done | simpl; done ].
    simpl. by rewrite Hs.
  - erewrite (rating_stranger _ req_old old knock_pk _ raw' v' (user_pk new));
      [ done | apply lookup_write_knock | done | done | done | simpl; done
      | done | simpl; done ].
Qed.

(** X10.  A deleted knock is gone for every view: after the requester's
    successful deletion, [rating], [assing_to] and a second deletion answer
    [Http404] to any signed-in user, as does [submit] to a user holding the
    permission. *)
Theorem deleted_knock_is_gone (db db' : DB) (req_r request : HttpRequest) (u : User)
    (knock_pk user_pk' : Z) :
  KnockDeleteView.post req_r knock_pk db = (inr RedirectHomepage, db') ->
  user request = Some u ->
  rating request knock_pk db' = (inl Http404, db')
  ∧ assing_to request knock_pk user_pk' db' = (inl Http404, db')
  ∧ KnockDeleteView.post request knock_pk db' = (inl Http404, db')
  ∧ (has_perm u "main.can_submit_for_knocks" = true ->
     submit request knock_pk db' = (inl Http404, db')).
Proof.
  intros Hdel Hu.
  apply (knock_404 request u knock_pk user_pk' db' Hu).
  destruct (delete_effect req_r knock_pk db) as [[_ Hno] | (k & _ & _ & _ & _ & E)].
  - rewrite Hdel in Hno. done.
  - rewrite Hdel in E. simpl in E. subst db'. simpl. apply lookup_delete_eq.
Qed.

(* ===================================================================== *)
(** ** Properties of [homepage] *)
(* ===================================================================== *)

#[global] Instance newer_total : Total newer.
Proof. intros a b. unfold newer. lia. Qed.

#[global] Instance newer_trans : Transitive newer.
Proof. intros a b c. unfold newer. lia. Qed.

Lemma objects_filter_elem (db : DB) (q : Lookup) (row : Z * Knock) :
  row ∈ objects_filter q db
  ↔ knocks db !! row.1 = Some row.2 ∧ lookup_holds db q row = true.
Proof.
  unfold objects_filter. rewrite list_elem_of_filter, Is_true_true.
  destruct row as [i k]. rewrite elem_of_map_to_list. simpl. tauto.
Qed.

Lemma homepage_eq (request : HttpRequest) (u : User) (db : DB) :
  user request = Some u ->
  homepage request db
  = (inr (RenderHomepage
            (mkHomepage
               (take 20 (order_by_update_time_desc (map_to_list (knocks db))))
               (objects_filter
                  (L_or (first_filter (user_pk u)) (second_filter (user_pk u))) db)
               (objects_filter (L_and (submits_eq (user_pk u)) (status_eq OPEN)) db))),
     db).
Proof. intros Hu. unfold homepage. by rewrite Hu. Qed.

Lemma status_eqb_eq (a b : Status) : status_eqb a b = true <-> a = b.
Proof. destruct a, b; simpl; split; congruence. Qed.

(** X11.  Rating a knock takes it off the rater's open items: a knock that
    is not closed, whose worker is not its requester, is among [my_knocks]
    on the homepage of a user who may rate it, and is no longer there once
    that user's rating has succeeded. *)
Theorem rated_knock_leaves_my_knocks (db db' : DB) (request visit : HttpRequest)
    (actor : User) (i : Z) (k : Knock) (ctx ctx' : HomepageContext) :
  knocks db !! i = Some k ->
  status k ≠ CLOSED ->
  Some (requester k) ≠ assigned_to k ->
  user request = Some actor ->
  user visit = Some actor ->
  rating request i db = (inr (RedirectKnockDetail i), db') ->
  homepage visit db = (inr (RenderHomepage ctx), db) ->
  homepage visit db' = (inr (RenderHomepage ctx'), db') ->
  (i, k) ∈ my_knocks ctx ∧ ∀ k', (i, k') ∉ my_knocks ctx'.
Proof.
  intros Hk Hst Hne Hu Hv Hrate Hhome Hhome'.
  rewrite (homepage_eq visit actor db Hv) in Hhome. injection Hhome as <-.
  rewrite (homepage_eq visit actor db' Hv) in Hhome'. injection Hhome' as <-.
  simpl.
  assert (status_eqb (status k) CLOSED = false) as Hst'.
  { destruct (status_eqb (status k) CLOSED) eqn:E; [|done].
    by apply status_eqb_eq in E. }
  destruct (rating_effect request i db)
    as [[_ Hno] | (k0 & v & a & Hk0 & Hv0 & Ha & _ & Hcase)];
    [by rewrite Hrate in Hno|].
  rewrite Hrate in Hcase. simpl in Hcase.
  assert (k0 = k) as -> by congruence.
  unfold request_user_pk in Hcase. rewrite Hu in Hcase. simpl in Hcase.
  destruct Hcase as [([= ->] & Hs & ->) | (Hna & [= Hr] & Hs & ->)].
  - split.
    + apply objects_filter_elem. split; [done|]. simpl.
      rewrite Ha, Hst', Hs, Z.eqb_refl. simpl. apply orb_true_r.
    + intros k' [Hk' Hq]%objects_filter_elem. simpl in Hk', Hq.
      rewrite lookup_insert_eq in Hk'. injection Hk' as <-. simpl in Hq.
      rewrite Ha in Hq.
      assert ((requester k =? user_pk actor) = false) as E
        by (apply Z.eqb_neq; congruence).
      rewrite E in Hq. simpl in Hq. by rewrite !andb_false_r in Hq.
  - split.
    + apply objects_filter_elem. split; [done|]. simpl.
      rewrite Hr, Hst', Hs, Z.eqb_refl. done.
    + intros k' [Hk' Hq]%objects_filter_elem. simpl in Hk', Hq.
      rewrite lookup_insert_eq in Hk'. injection Hk' as <-. simpl in Hq.
      rewrite Ha in Hq.
      assert ((a =? user_pk actor) = false) as E by (apply Z.eqb_neq; congruence).
      rewrite E in Hq. simpl in Hq. by rewrite !andb_false_r in Hq.
Qed.

(** X12.  On the homepage of a signed-in user, [my_submits] lists exactly
    the OPEN knocks on which the user has a submission; in a consistent
    database it never lists a knock of the user's own; and right after the
    user's successful [submit] on a knock, the row of that knock is the one
    that [save] wrote, and it is listed exactly when the status that [save]
    wrote is OPEN. *)
Theorem submitted_knock_in_my_submits (db : DB) (visit : HttpRequest) (u : User)
    (ctx : HomepageContext) :
  user visit = Some u ->
  homepage visit db = (inr (RenderHomepage ctx), db) ->
  (∀ i k, (i, k) ∈ my_submits ctx
          ↔ knocks db !! i = Some k ∧ (i, user_pk u) ∈ knock_submits db ∧ status k = OPEN)
  ∧ (consistent db -> ∀ row, row ∈ my_submits ctx -> requester row.2 ≠ user_pk u)
  ∧ (∀ before request i k,
       user request = Some u ->
       knocks before !! i = Some k ->
       submit request i before = (inr (RedirectKnockDetail i), db) ->
       knocks db !! i = Some (saved (time request) k)
       ∧ ((i, saved (time request) k) ∈ my_submits ctx ↔ saved_status k = OPEN)).
Proof.
  intros Hv Hhome.
  rewrite (homepage_eq visit u db Hv) in Hhome. injection Hhome as <-. simpl.
  assert (∀ i k, (i, k) ∈ objects_filter (L_and (submits_eq (user_pk u)) (status_eq OPEN)) db
                 ↔ knocks db !! i = Some k ∧ (i, user_pk u) ∈ knock_submits db
                   ∧ status k = OPEN) as Hmem.
  { intros i k. rewrite objects_filter_elem. simpl.
    rewrite andb_true_iff, bool_decide_eq_true, status_eqb_eq. tauto. }
  split; [exact Hmem|]. split.
  - intros (Hown & _ & _) [i k] (Hk & Hin & _)%Hmem. simpl.
    intros E. apply (Hown i k Hk). by rewrite E.
  - intros before request i k Hu Hk Hsub.
    destruct (submit_effect request i before)
      as [[_ Hno] | (k0 & u0 & Hk0 & Hu0 & _ & _ & _ & _ & E)];
      [by rewrite Hsub in Hno|].
    rewrite Hsub in E. simpl in E.
    assert (u0 = u) as -> by congruence.
    assert (k0 = k) as -> by congruence.
    assert (knocks db !! i = Some (saved (time request) k)) as Hk'
      by (subst db; apply lookup_write_knock).
    split; [exact Hk'|]. rewrite Hmem. simpl. split; [tauto|].
    intros Hst. split; [done|]. split; [|done].
    subst db. unfold submitted, write_knock. simpl.
    apply elem_of_union. left. by apply elem_of_singleton.
Qed.

Lemma ordered_rows (db : DB) :
  StronglySorted newer (order_by_update_time_desc (map_to_list (knocks db)))
  ∧ order_by_update_time_desc (map_to_list (knocks db)) ≡ₚ map_to_list (knocks db).
Proof.
  unfold order_by_update_time_desc. split.
  - apply (StronglySorted_merge_sort newer).
  - apply merge_sort_Permutation.
Qed.

(** X13.  [last_updated_knocks] on the homepage holds at most twenty rows
    of the table, none twice, latest first; a knock that is left out is no
    later than any knock shown, and then twenty are shown.  An anonymous
    visitor is shown no [my_knocks] and no [my_submits]. *)
Theorem homepage_last_updated (request : HttpRequest) (db : DB) :
  ∃ ctx,
    homepage request db = (inr (RenderHomepage ctx), db)
    ∧ (length (last_updated_knocks ctx) <= 20)%nat
    ∧ StronglySorted newer (last_updated_knocks ctx)
    ∧ NoDup (last_updated_knocks ctx)
    ∧ (∀ i k, (i, k) ∈ last_updated_knocks ctx -> knocks db !! i = Some k)
    ∧ (∀ i k, knocks db !! i = Some k ->
         (i, k) ∈ last_updated_knocks ctx
         ∨ (length (last_updated_knocks ctx) = 20%nat
            ∧ ∀ row, row ∈ last_updated_knocks ctx ->
                     update_time k <= update_time row.2))
    ∧ (user request = None -> my_knocks ctx = [] ∧ my_submits ctx = []).
Proof.
  destruct (ordered_rows db) as [Hsorted Hperm].
  set (rows := order_by_update_time_desc (map_to_list (knocks db))) in *.
  assert (∃ mk ms, homepage request db
                   = (inr (RenderHomepage (mkHomepage (take 20 rows) mk ms)), db)
                   ∧ (user request = None -> mk = [] ∧ ms = [])) as (mk & ms & E & Hanon).
  { unfold homepage. destruct (user request) as [u|];
      (eexists _, _; split; [reflexivity | by intros]). }
  eexists. split; [exact E|]. simpl.
  rewrite <- (take_drop 20 rows) in Hsorted.
  split; [rewrite length_take; lia|].
  split; [by apply StronglySorted_app_1_l in Hsorted|].
  split.
  { assert (NoDup (take 20 rows ++ drop 20 rows)) as Hnd
      by (rewrite take_drop, Hperm; apply NoDup_map_to_list).
    by apply NoDup_app in Hnd as (? & _ & _). }
  split.
  { intros i k Hin. apply elem_of_map_to_list. rewrite <- Hperm.
    by apply (subseteq_take 20). }
  split; [|exact Hanon].
  intros i k Hk.
  assert ((i, k) ∈ (take 20 rows ++ drop 20 rows)%list) as Hin.
  { rewrite take_drop, Hperm. by apply elem_of_map_to_list. }
  apply elem_of_app in Hin as [Hin | Hin]; [by left | right].
  split.
  - apply length_take_le.
    destruct (decide (20 <= length rows)%nat) as [|Hlt]; [done|].
    rewrite drop_ge in Hin by lia. by apply elem_of_nil in Hin.
  - intros row Hrow.
    apply (StronglySorted_app_1_elem_of newer _ _ row (i, k) Hsorted Hrow Hin).
Qed.

Lemma latest_row_first (db : DB) (i : Z) (k : Knock) :
  knocks db !! i = Some k ->
  (∀ j kj, knocks db !! j = Some kj -> j ≠ i -> update_time kj < update_time k) ->
  take 20 (order_by_update_time_desc (map_to_list (knocks db))) !! 0%nat = Some (i, k).
Proof.
  intros Hk Hlate.
  destruct (ordered_rows db) as [Hsorted Hperm].
  set (rows := order_by_update_time_desc (map_to_list (knocks db))) in *.
  assert ((i, k) ∈ rows) as Hin by (rewrite Hperm; by apply elem_of_map_to_list).
  destruct rows as [|[j kj] rest] eqn:E; [by apply elem_of_nil in Hin|].
  simpl. f_equal.
  assert (knocks db !! j = Some kj) as Hj.
  { apply elem_of_map_to_list. rewrite <- Hperm. left. }
  destruct (decide (j = i)) as [->|Hne]; [congruence|].
  apply elem_of_cons in Hin as [[= -> ->] | Hin]; [done|].
  apply StronglySorted_cons in Hsorted as [Hall _].
  rewrite Forall_forall in Hall. specialize (Hall _ Hin). unfold newer in Hall.
  simpl in Hall. specialize (Hlate j kj Hj Hne). lia.
Qed.

(** X14.  The knock just written comes first: after a successful [rating],
    [assing_to] or [submit] served at a time later than the update of every
    row, the knock it wrote carries that time and heads
    [last_updated_knocks] on the homepage. *)
Theorem written_knock_heads_homepage (db db' : DB) (request visit : HttpRequest)
    (i : Z) (ctx : HomepageContext) :
  rating request i db = (inr (RedirectKnockDetail i), db')
  ∨ (∃ c, assing_to request i c db = (inr (RedirectKnockDetail i), db'))
  ∨ submit request i db = (inr (RedirectKnockDetail i), db') ->
  (∀ j kj, knocks db !! j = Some kj -> update_time kj < time request) ->
  homepage visit db' = (inr (RenderHomepage ctx), db') ->
  ∃ k', knocks db' !! i = Some k'
        ∧ update_time k' = time request
        ∧ last_updated_knocks ctx !! 0%nat = Some (i, k').
Proof.
  intros Hview Hlate Hhome.
  assert (∃ k0, knocks db' = <[i := saved (time request) k0]> (knocks db)) as [k0 E].
  { destruct Hview as [H | [[c H] | H]].
    - destruct (rating_effect request i db)
        as [[_ Hno] | (k & v & a & _ & _ & _ & _ & [(_ & _ & E) | (_ & _ & _ & E)])];
        rewrite H in *; [done | |]; simpl in E; subst db'; eexists; reflexivity.
    - destruct (assing_to_effect request i c db)
        as [[_ Hno] | (k & _ & _ & _ & _ & _ & E)];
        rewrite H in *; [done|]; simpl in E; subst db'; eexists; reflexivity.
    - destruct (submit_effect request i db)
        as [[_ Hno] | (k & u & _ & _ & _ & _ & _ & _ & E)];
        rewrite H in *; [done|]; simpl in E; subst db'; eexists; reflexivity. }
  assert (knocks db' !! i = Some (saved (time request) k0)) as Hk'
    by (rewrite E; apply lookup_insert_eq).
  exists (saved (time request) k0). split; [done|]. split; [done|].
  assert (last_updated_knocks ctx
          = take 20 (order_by_update_time_desc (map_to_list (knocks db')))) as ->.
  { unfold homepage in Hhome. destruct (user visit); by injection Hhome as <-. }
  apply latest_row_first; [done|].
  intros j kj Hj Hne. rewrite E, lookup_insert_ne in Hj by done.
  simpl. by apply (Hlate j kj).
Qed.

(* ===================================================================== *)
(** ** Properties of [profile] *)
(* ===================================================================== *)

Lemma profile_eq (request : HttpRequest) (user_pk' : Z) (row : User) (db : DB) :
  users db !! user_pk' = Some row ->
  profile request user_pk' db
  = (inr (RenderProfile
            (mkProfile row
               (order_by_update_time_desc
                  (objects_filter (L_or (requester_eq user_pk') (assigned_to_eq user_pk')) db))
               (Avg ((fun r => request_stars r.2) <$> objects_filter (requester_eq user_pk') db))
               (Avg ((fun r => work_stars r.2) <$> objects_filter (assigned_to_eq user_pk') db)))),
     db).
Proof. intros H. unfold profile, bind, get_user_or_404. by rewrite H. Qed.

Lemma assigned_to_eqb (k : Knock) (u : Z) :
  match assigned_to k with Some a => a =? u | None => false end = true
  <-> assigned_to k = Some u.
Proof.
  destruct (assigned_to k) as [a|]; [|done].
  rewrite Z.eqb_eq. split; congruence.
Qed.

(** X15.  [profile] answers [Http404] for a key without a user row.
    Otherwise it shows that user, with exactly the knocks they requested or
    are assigned to, latest first; every knock among the user's [my_knocks]
    on the homepage is on their profile too. *)
Theorem profile_lists_user_knocks (request : HttpRequest) (user_pk' : Z) (db : DB) :
  (users db !! user_pk' = None -> profile request user_pk' db = (inl Http404, db))
  ∧ (∀ row, users db !! user_pk' = Some row ->
       ∃ ctx, profile request user_pk' db = (inr (RenderProfile ctx), db)
         ∧ user_profile ctx = row
         ∧ StronglySorted newer (profile_knocks ctx)
         ∧ (∀ i k, (i, k) ∈ profile_knocks ctx
                   ↔ knocks db !! i = Some k
                     ∧ (requester k = user_pk' ∨ assigned_to k = Some user_pk'))
         ∧ (∀ visit u hctx, user visit = Some u -> user_pk u = user_pk' ->
              homepage visit db = (inr (RenderHomepage hctx), db) ->
              ∀ r, r ∈ my_knocks hctx -> r ∈ profile_knocks ctx)).
Proof.
  split.
  { intros H. unfold profile, bind, get_user_or_404. by rewrite H. }
  intros row Hrow. eexists. split; [apply (profile_eq _ _ row _ Hrow)|]. simpl.
  split; [done|].
  split; [apply (StronglySorted_merge_sort newer)|].
  assert (∀ i k, (i, k) ∈ order_by_update_time_desc
                   (objects_filter (L_or (requester_eq user_pk') (assigned_to_eq user_pk')) db)
                 ↔ knocks db !! i = Some k
                   ∧ (requester k = user_pk' ∨ assigned_to k = Some user_pk')) as Hmem.
  { intros i k. unfold order_by_update_time_desc.
    rewrite merge_sort_Permutation, objects_filter_elem. simpl.
    rewrite orb_true_iff, Z.eqb_eq, assigned_to_eqb. done. }
  split; [exact Hmem|].
  intros visit u hctx Hv Hu Hhome [i k] Hin.
  rewrite (homepage_eq visit u db Hv) in Hhome. injection Hhome as <-. simpl in Hin.
  apply objects_filter_elem in Hin as [Hk Hq]. simpl in Hk, Hq.
  apply Hmem. split; [done|]. rewrite Hu in Hq.
  apply orb_true_iff in Hq as [Hq | Hq].
  - left. apply andb_true_iff in Hq as [Hq _]. apply andb_true_iff in Hq as [Hq _].
    by apply Z.eqb_eq.
  - right. apply andb_true_iff in Hq as [Hq _]. apply andb_true_iff in Hq as [Hq _].
    by apply assigned_to_eqb.
Qed.

Lemma Avg_None (values : list (option Z)) :
  Avg values = None <-> ∀ v, Some v ∉ values.
Proof.
  assert (Avg values = None <-> omap id values = []) as ->.
  { unfold Avg. destruct (omap id values); split; done. }
  induction values as [|[x|] l IH]; simpl.
  - split; [|done]. intros _ v Hv. by apply elem_of_nil in Hv.
  - split; [done|]. intros H. exfalso. apply (H x). left.
  - rewrite IH. split.
    + intros H v [[=] | Hv]%elem_of_cons. by apply (H v).
    + intros H v Hv. apply (H v). by right.
Qed.

Lemma sum_bounds (present : list Z) :
  (∀ v, v ∈ present -> 1 <= v <= 5) ->
  Z.of_nat (length present) <= foldr Z.add 0 present <= 5 * Z.of_nat (length present).
Proof.
  induction present as [|x l IH]; intros H; simpl; [lia|].
  pose proof (H x (list_elem_of_here _ _)).
  assert (∀ v, v ∈ l -> 1 <= v <= 5) as Hl by (intros v Hv; apply H; by right).
  specialize (IH Hl). lia.
Qed.

Lemma Avg_Some (values : list (option Z)) (a : Average) :
  Avg values = Some a ->
  0 < count a
  ∧ ((∀ v, Some v ∈ values -> 1 <= v <= 5) -> count a <= total a <= 5 * count a).
Proof.
  unfold Avg. destruct (omap id values) as [|x l] eqn:E; [done|].
  intros [= <-]. simpl. split; [lia|]. intros H.
  assert (∀ v, v ∈ x :: l -> 1 <= v <= 5) as Hl.
  { intros v Hv. rewrite <- E in Hv. apply list_elem_of_omap in Hv as (o & Ho & Hid).
    simpl in Hid. subst o. by apply H. }
  pose proof (sum_bounds (x :: l) Hl) as Hb. simpl in Hb. lia.
Qed.

(** X16.  On a profile, the requester rating is absent exactly when none of
    the knocks the user requested has [request_stars], and the worker rating
    exactly when none of the knocks assigned to the user has [work_stars].
    An average that is shown counts at least one value, and when every
    stored rating lies in [1,5] so does the average. *)
Theorem profile_ratings (request : HttpRequest) (user_pk' : Z) (db : DB)
    (ctx : ProfileContext) :
  profile request user_pk' db = (inr (RenderProfile ctx), db) ->
  (request_rating ctx = None
   ↔ ∀ i k, knocks db !! i = Some k -> requester k = user_pk' -> request_stars k = None)
  ∧ (work_rating ctx = None
     ↔ ∀ i k, knocks db !! i = Some k -> assigned_to k = Some user_pk' ->
              work_stars k = None)
  ∧ (∀ a, request_rating ctx = Some a ∨ work_rating ctx = Some a ->
       0 < count a ∧ (stars_in_range db -> count a <= total a <= 5 * count a)).
Proof.
  intros Hp.
  destruct (users db !! user_pk') as [row|] eqn:Hrow;
    [|unfold profile, bind, get_user_or_404 in Hp; by rewrite Hrow in Hp].
  rewrite (profile_eq request user_pk' row db Hrow) in Hp. injection Hp as <-. simpl.
  assert (∀ (q : Lookup) (f : Knock -> option Z) v,
            Some v ∈ (fun r : Z * Knock => f r.2) <$> objects_filter q db
            ↔ ∃ i k, knocks db !! i = Some k ∧ lookup_holds db q (i, k) = true
                     ∧ f k = Some v) as Hmem.
  { intros q f v. rewrite list_elem_of_fmap. split.
    - intros ([i k] & Hv & [Hk Hq]%objects_filter_elem). eauto.
    - intros (i & k & Hk & Hq & Hv). exists (i, k). split; [done|].
      by apply objects_filter_elem. }
  split; [|split].
  - rewrite Avg_None. split.
    + intros H i k Hk Hr. destruct (request_stars k) as [v|] eqn:Hs; [|done].
      exfalso. apply (H v). apply Hmem. exists i, k. simpl.
      by rewrite Hr, Z.eqb_refl.
    + intros H v (i & k & Hk & Hq & Hv)%Hmem. simpl in Hq. apply Z.eqb_eq in Hq.
      rewrite (H i k Hk Hq) in Hv. done.
  - rewrite Avg_None. split.
    + intros H i k Hk Hr. destruct (work_stars k) as [v|] eqn:Hs; [|done].
      exfalso. apply (H v). apply Hmem. exists i, k. simpl.
      by rewrite Hr, Z.eqb_refl.
    + intros H v (i & k & Hk & Hq & Hv)%Hmem. simpl in Hq.
      apply assigned_to_eqb in Hq. rewrite (H i k Hk Hq) in Hv. done.
  - intros a [Ha | Ha]; apply Avg_Some in Ha as [Hpos Hb]; (split; [done|]);
      intros Hrange; apply Hb; intros v (i & k & Hk & _ & Hv)%Hmem;
      apply (Hrange i k v Hk); auto.
Qed.

Lemma sum_Permutation (l l' : list Z) :
  l ≡ₚ l' -> foldr Z.add 0 l = foldr Z.add 0 l'.
Proof. induction 1; simpl; lia. Qed.

Lemma Avg_Permutation (l l' : list (option Z)) : l ≡ₚ l' -> Avg l = Avg l'.
Proof.
  intros H. unfold Avg.
  assert (omap id l ≡ₚ omap id l') as Hp by (by rewrite H).
  pose proof (sum_Permutation _ _ Hp) as Hs.
  pose proof (Permutation_length Hp) as Hl.
  destruct (omap id l) as [|x p], (omap id l') as [|x' p']; try done.
  by rewrite Hs, Hl.
Qed.

Lemma Avg_cons_None (l : list (option Z)) : Avg (None :: l) = Avg l.
Proof. reflexivity. Qed.

Lemma Avg_cons_Some (v : Z) (l : list (option Z)) :
  Avg (Some v :: l) = Some (add_rating v (Avg l)).
Proof.
  unfold Avg. change (omap id (Some v :: l)) with (v :: omap id l).
  destruct (omap id l) as [|x p]; unfold add_rating; cbn [foldr total count];
    rewrite ?length_cons, ?Nat2Z.inj_succ; f_equal; f_equal; simpl length; lia.
Qed.

(** The average of a column over the rows that satisfy a test, before and
    after one row is overwritten. *)
Lemma Avg_after_write (m : gmap Z Knock) (i : Z) (k k' : Knock)
    (P : Z * Knock -> bool) (f : Z * Knock -> option Z) :
  m !! i = Some k ->
  P (i, k') = P (i, k) ->
  (f (i, k') = f (i, k) ->
   Avg (f <$> filter (fun r => P r) (map_to_list (<[i := k']> m)))
   = Avg (f <$> filter (fun r => P r) (map_to_list m)))
  ∧ (∀ v, P (i, k) = true -> f (i, k) = None -> f (i, k') = Some v ->
     Avg (f <$> filter (fun r => P r) (map_to_list (<[i := k']> m)))
     = Some (add_rating v (Avg (f <$> filter (fun r => P r) (map_to_list m))))).
Proof.
  intros Hk HP.
  assert (map_to_list (<[i := k']> m) ≡ₚ (i, k') :: map_to_list (base.delete i m)) as H'.
  { rewrite <- (insert_delete_eq m). apply map_to_list_insert, lookup_delete_eq. }
  assert (map_to_list m ≡ₚ (i, k) :: map_to_list (base.delete i m)) as H
    by (symmetry; by apply map_to_list_delete).
  set (rest := map_to_list (base.delete i m)) in *.
  assert (∀ l l', l ≡ₚ l' ->
            Avg (f <$> filter (fun r => P r) l) = Avg (f <$> filter (fun r => P r) l'))
    as Hperm by (intros l l' Hl; apply Avg_Permutation; by rewrite Hl).
  rewrite (Hperm _ _ H'), (Hperm _ _ H).
  split.
  - intros Hf. destruct (P (i, k)) eqn:E.
    + rewrite !filter_cons_True by (by apply Is_true_true). simpl. by rewrite Hf.
    + rewrite !filter_cons_False by (by apply Is_true_false). done.
  - intros v E Hn Hs.
    rewrite !filter_cons_True by (apply Is_true_true; congruence). simpl.
    rewrite Hn, Hs, Avg_cons_None. apply Avg_cons_Some.
Qed.

(** X17.  The worker's rating shows on the requester's profile: a successful
    rating [v] by the worker of a knock turns the requester's requester
    rating into the average with one more value [v], and leaves the
    requester's worker rating as it was. *)
Theorem worker_rating_updates_profile (db : DB) (request visit : HttpRequest)
    (actor row : User) (i : Z) (k : Knock) (raw : string) (v : Z) :
  knocks db !! i = Some k ->
  assigned_to k = Some (user_pk actor) ->
  request_stars k = None ->
  user request = Some actor ->
  POST request !! "rating" = Some raw ->
  parse_rating raw = Some v ->
  users db !! requester k = Some row ->
  ∃ db' ctx ctx',
    rating request i db = (inr (RedirectKnockDetail i), db')
    ∧ profile visit (requester k) db = (inr (RenderProfile ctx), db)
    ∧ profile visit (requester k) db' = (inr (RenderProfile ctx'), db')
    ∧ request_rating ctx' = Some (add_rating v (request_rating ctx))
    ∧ work_rating ctx' = work_rating ctx.
Proof.
  intros Hk Ha Hs Hu Hp Hv Hrow.
  eexists _, _, _. split.
  { rewrite (rating_worker db request actor i k raw v Hk Hu Hp Hv Ha), Hs. reflexivity. }
  split; [apply (profile_eq visit _ row db Hrow)|].
  split; [apply (profile_eq visit (requester k) row (write_knock i _ db) Hrow)|].
  simpl. unfold objects_filter. simpl.
  split.
  - apply (proj2 (Avg_after_write (knocks db) i k
             (saved (time request) (set_request_stars v k))
             (fun r => requester r.2 =? requester k) (fun r => request_stars r.2)
             Hk eq_refl) v); simpl; [apply Z.eqb_refl | done | done].
  - apply (proj1 (Avg_after_write (knocks db) i k
             (saved (time request) (set_request_stars v k))
             (fun r => match assigned_to r.2 with
                       | Some a => a =? requester k
                       | None => false
                       end)
             (fun r => work_stars r.2) Hk eq_refl)). done.
Qed.

(** X18.  The requester's rating shows on the worker's profile: a successful
    rating [v] by the requester of a knock turns the worker's worker rating
    into the average with one more value [v]. *)
Theorem requester_rating_updates_profile (db : DB) (request visit : HttpRequest)
    (actor row : User) (i w : Z) (k : Knock) (raw : string) (v : Z) :
  knocks db !! i = Some k ->
  assigned_to k = Some w ->
  user_pk actor ≠ w ->
  requester k = user_pk actor ->
  work_stars k = None ->
  user request = Some actor ->
  POST request !! "rating" = Some raw ->
  parse_rating raw = Some v ->
  users db !! w = Some row ->
  ∃ db' ctx ctx',
    rating request i db = (inr (RedirectKnockDetail i), db')
    ∧ profile visit w db = (inr (RenderProfile ctx), db)
    ∧ profile visit w db' = (inr (RenderProfile ctx'), db')
    ∧ work_rating ctx' = Some (add_rating v (work_rating ctx))
    ∧ request_rating ctx' = request_rating ctx.
Proof.
  intros Hk Ha Hne Hr Hs Hu Hp Hv Hrow.
  eexists _, _, _. split.
  { rewrite (rating_requester db request actor i k raw v w Hk Hu Hp Hv Ha Hne Hr), Hs.
    reflexivity. }
  split; [apply (profile_eq visit _ row db Hrow)|].
  split; [apply (profile_eq visit w row (write_knock i _ db) Hrow)|].
  simpl. unfold objects_filter. simpl.
  split.
  - apply (proj2 (Avg_after_write (knocks db) i k
             (saved (time request) (set_work_stars v k))
             (fun r => match assigned_to r.2 with Some a => a =? w | None => false end)
             (fun r => work_stars r.2) Hk eq_refl) v); simpl;
      [rewrite Ha; apply Z.eqb_refl | done | done].
  - apply (proj1 (Avg_after_write (knocks db) i k
             (saved (time request) (set_work_stars v k))
             (fun r => requester r.2 =? w) (fun r => request_stars r.2) Hk eq_refl)).
    done.
Qed.

(* ===================================================================== *)
(** ** More on the pages of [search] *)
(* ===================================================================== *)

(** X19.  A page number below 1 is answered like one beyond the end, with
    the last page, not the first. *)
Theorem search_page_below_one (request : HttpRequest) (db : DB)
    (results : list (Z * Knock)) (s : string) (n : Z) :
  search_results request db = (inr results, db) ->
  GET request !! "page" = Some s ->
  Py.int s = Some n ->
  n < 1 ->
  ∃ url_params,
    search request db
    = (inr (RenderSearch
              (mkPage (page_of results (Paginator.num_pages (Paginator.Paginator results 20)))
                      (Paginator.num_pages (Paginator.Paginator results 20)))
              url_params), db).
Proof.
  intros E Hg Hs Hn.
  destruct (proj2 (search_eq request db) results E) as (page & Hp & Hsearch).
  eexists. rewrite Hsearch. do 2 f_equal.
  rewrite Hg, (search_page_empty results s n Hs) in Hp by (by left).
  injection Hp as <-. f_equal. f_equal.
  unfold page_of. symmetry. apply take_ge. rewrite length_drop.
  pose proof (num_pages_covers results). pose proof (num_pages_pos results).
  unfold Paginator.count in *. simpl in *. lia.
Qed.

Lemma chunks_join (k : nat) (l : list (Z * Knock)) :
  (length l <= 20 * k)%nat ->
  mjoin ((fun i : nat => take 20 (drop (20 * i) l)) <$> seq 0 k) = l.
Proof.
  revert l. induction k as [|k IH]; intros l Hl.
  - simpl. destruct l; [done | simpl in Hl; lia].
  - rewrite <- cons_seq, <- fmap_S_seq, fmap_cons, <- list_fmap_compose.
    change (take 20 (drop (20 * 0) l)
            ++ mjoin ((fun i : nat => take 20 (drop (20 * i) l)) ∘ S <$> seq 0 k) = l)%list.
    transitivity (take 20 l ++ drop 20 l)%list; [|apply take_drop].
    f_equal.
    transitivity (mjoin ((fun i : nat => take 20 (drop (20 * i) (drop 20 l))) <$> seq 0 k));
      [|apply IH; rewrite length_drop; lia].
    f_equal. apply list_fmap_ext. intros _ i _. simpl.
    rewrite drop_drop. do 2 f_equal. lia.
Qed.

(** X20.  The pages cut the result set without loss or repetition: each
    page number from 1 to the last is accepted and shows [page_of], every
    page before the last holds twenty rows, the pages put end to end are the
    result set, and the result at index [j] stands at index [j mod 20] of
    page [j / 20 + 1]. *)
Theorem pages_partition_results (results : list (Z * Knock)) :
  let p := Paginator.Paginator results 20 in
  let last := Paginator.num_pages p in
  (∀ n, 1 <= n <= last ->
     Paginator.page p (Paginator.ArgInt n) = inr (mkPage (page_of results n) n))
  ∧ (∀ n, 1 <= n < last -> length (page_of results n) = 20%nat)
  ∧ mjoin (page_of results <$> seqZ 1 last) = results
  ∧ (∀ (j : nat) row, results !! j = Some row ->
       1 <= Z.of_nat (j / 20) + 1 <= last
       ∧ page_of results (Z.of_nat (j / 20) + 1) !! (j mod 20)%nat = Some row).
Proof.
  intros p last.
  pose proof (num_pages_eq results) as Hlast. fold p last in Hlast.
  unfold Paginator.count in Hlast. simpl in Hlast.
  split; [exact (page_in_range results)|].
  split.
  { intros n Hn. unfold page_of. rewrite length_take, length_drop.
    Z.to_euclidean_division_equations. lia. }
  split.
  { unfold seqZ. rewrite <- list_fmap_compose.
    rewrite <- (chunks_join (Z.to_nat last) results) at 2.
    - f_equal. apply list_fmap_ext. intros _ i _. simpl. unfold page_of.
      do 2 f_equal. lia.
    - Z.to_euclidean_division_equations. lia. }
  intros j row Hj.
  pose proof (lookup_lt_Some _ _ _ Hj) as Hlt.
  pose proof (Nat.div_mod_eq j 20) as Hdiv.
  pose proof (Nat.mod_upper_bound j 20) as Hmod.
  split.
  - Z.to_euclidean_division_equations. lia.
  - unfold page_of. rewrite lookup_take_lt by lia. rewrite lookup_drop.
    rewrite <- Hj. f_equal. lia.
Qed.

(* ===================================================================== *)
(** ** Properties of the [init] command *)
(* ===================================================================== *)

Lemma get_or_create_lookup (name other : string) (st : Init.State) :
  Init.groups (Init.get_or_create name st) !! other
  = match Init.groups st !! other with
    | Some g => Some g
    | None => if bool_decide (other = name) then Some (Init.mkGroup []) else None
    end.
Proof.
  unfold Init.get_or_create.
  destruct (Init.groups st !! name) as [g|] eqn:E; simpl.
  - destruct (Init.groups st !! other) eqn:E'; [done|].
    case_bool_decide; [congruence | done].
  - case_bool_decide as Hn.
    + subst other. by rewrite lookup_insert_eq, E.
    + rewrite lookup_insert_ne by done. by destruct (Init.groups st !! other).
Qed.

Lemma handle_lookup (st : Init.State) (name : string) :
  Init.groups (Init.handle st) !! name
  = match Init.groups st !! name with
    | Some g => Some g
    | None =>
        if bool_decide (name = "Workers" ∨ name = "Test Users")
        then Some (Init.mkGroup []) else None
    end.
Proof.
  unfold Init.handle, Init.print. simpl.
  rewrite get_or_create_lookup. simpl. rewrite get_or_create_lookup. simpl.
  destruct (Init.groups st !! name); [done|].
  destruct (decide (name = "Workers")) as [Hw|Hw].
  { rewrite (bool_decide_eq_true_2 (name = "Workers")) by done.
    by rewrite (bool_decide_eq_true_2 (name = "Workers" ∨ _)) by (by left). }
  rewrite (bool_decide_eq_false_2 (name = "Workers")) by done.
  destruct (decide (name = "Test Users")) as [Ht|Ht].
  { rewrite (bool_decide_eq_true_2 (name = "Test Users")) by done.
    by rewrite (bool_decide_eq_true_2 (name = "Workers" ∨ _)) by (by right). }
  rewrite (bool_decide_eq_false_2 (name = "Test Users")) by done.
  by rewrite (bool_decide_eq_false_2 (name = "Workers" ∨ _)) by (by intros [?|?]).
Qed.

(** X21.  After [init] the groups [Workers] and [Test Users] exist; a group
    that existed before, these two included, keeps its row with its
    permissions; a group that is created has no permission; and no other
    group appears. *)
Theorem init_creates_missing_groups (st : Init.State) (name : string) :
  Init.groups (Init.handle st) !! name
  = match Init.groups st !! name with
    | Some g => Some g
    | None =>
        if bool_decide (name = "Workers" ∨ name = "Test Users")
        then Some (Init.mkGroup []) else None
    end.
Proof. apply handle_lookup. Qed.

(** X22.  Running [init] again changes no group, and each run prints the
    same four lines, "created" included, whether or not a group was
    created. *)
Theorem init_is_idempotent (st : Init.State) :
  Init.groups (Init.handle (Init.handle st)) = Init.groups (Init.handle st)
  ∧ Init.stdout (Init.handle st)
    = (Init.stdout st ++ ["INIT COMMAND START"; "Workers group created";
                          "Test Users group created"; "INIT COMMAND END"])%list.
Proof.
  split.
  - apply map_eq. intros name. rewrite !handle_lookup.
    destruct (Init.groups st !! name); [done|]. by case_bool_decide.
  - unfold Init.handle, Init.print, Init.get_or_create. simpl.
    destruct (Init.groups st !! "Workers"); simpl;
      [destruct (Init.groups st !! "Test Users")
      | destruct (<[ "Workers" := Init.mkGroup [] ]> (Init.groups st) !! "Test Users")];
      simpl; by rewrite <- !app_assoc.
Qed.

(* ===================================================================== *)
(** ** The date in the links of [search] *)
(* ===================================================================== *)

Lemma digit_value_char (d : Z) :
  0 <= d <= 9 -> Py.digit_value (digit_char d) = Some d.
Proof.
  intros H.
  assert (d = 0 ∨ d = 1 ∨ d = 2 ∨ d = 3 ∨ d = 4 ∨ d = 5 ∨ d = 6 ∨ d = 7 ∨ d = 8 ∨ d = 9)
    as Hd by lia.
  repeat (destruct Hd as [-> | Hd]; [reflexivity|]). by subst d.
Qed.

Lemma digits2_pad2 (n : Z) :
  0 <= n <= 99 ->
  Py.digits2 (digit_char (n / 10)) (digit_char (n mod 10)) = Some n.
Proof.
  intros H. unfold Py.digits2.
  rewrite !digit_value_char by (Z.to_euclidean_division_equations; lia).
  simpl. f_equal. Z.to_euclidean_division_equations. lia.
Qed.

(** The parser of the examples reads back what [str] writes for a date of
    the calendar. *)
Lemma isoformat_roundtrip (d : Py.date) :
  valid_date d -> Py.parse_calendar_date (isoformat d) = Some d.
Proof.
  destruct d as [y m dd]. intros (Hy & Hm & Hd). simpl in *.
  unfold isoformat, pad2. simpl. unfold Py.parse_calendar_date. simpl.
  rewrite (digits2_pad2 (y / 100)) by (Z.to_euclidean_division_equations; lia).
  rewrite (digits2_pad2 (y mod 100)) by (Z.to_euclidean_division_equations; lia).
  rewrite (digits2_pad2 m) by lia.
  assert (Py.days_in_month y m <= 31) as Hdim.
  { unfold Py.days_in_month. repeat destruct (_ =? _); simpl; try lia.
    destruct (Py.is_leap y); lia. }
  rewrite (digits2_pad2 dd) by lia.
  simpl. unfold Py.calendar_date.
  replace (100 * (y / 100) + y mod 100) with y
    by (Z.to_euclidean_division_equations; lia).
  destruct Hy as [Hy1 Hy2], Hm as [Hm1 Hm2], Hd as [Hd1 Hd2].
  apply Z.leb_le in Hy1, Hm1, Hm2, Hd1, Hd2.
  by rewrite Hy1, Hm1, Hm2, Hd1, Hd2.
Qed.



(* ===================================================================== *)
(** ** Requests that fail *)
(* ===================================================================== *)

(** X24.  A request that is not answered with the redirect of a success
    leaves no trace: whenever [rating], [assing_to] or [submit] answers
    anything but the redirect to the knock (an exception or the login page),
    and whenever the deletion answers anything but the redirect to the
    homepage, the database is as it was. *)
Theorem failed_request_writes_nothing (request : HttpRequest) (knock_pk user_pk' : Z)
    (db : DB) :
  ((rating request knock_pk db).1 ≠ inr (RedirectKnockDetail knock_pk) ->
   (rating request knock_pk db).2 = db)
  ∧ ((assing_to request knock_pk user_pk' db).1 ≠ inr (RedirectKnockDetail knock_pk) ->
     (assing_to request knock_pk user_pk' db).2 = db)
  ∧ ((submit request knock_pk db).1 ≠ inr (RedirectKnockDetail knock_pk) ->
     (submit request knock_pk db).2 = db)
  ∧ ((KnockDeleteView.post request knock_pk db).1 ≠ inr RedirectHomepage ->
     (KnockDeleteView.post request knock_pk db).2 = db).
Proof.
  split; [|split; [|split]]; intros Hfail.
  - destruct (rating_effect request knock_pk db)
      as [[E _] | (k & v & a & _ & _ & _ & Hok & _)]; [exact E | done].
  - destruct (assing_to_effect request knock_pk user_pk' db)
      as [[E _] | (k & _ & _ & _ & _ & Hok & _)]; [exact E | done].
  - destruct (submit_effect request knock_pk db)
      as [[E _] | (k & u & _ & _ & _ & _ & _ & Hok & _)]; [exact E | done].
  - destruct (delete_effect request knock_pk db)
      as [[E _] | (k & _ & _ & _ & Hok & _)]; [exact E | done].
Qed.

End Properties.

(* ===================================================================== *)
(** ** The properties at work on the sample database *)
(* ===================================================================== *)

#[local] Existing Instance Sample.platform.

Lemma rating_by_role_witness :
  knocks Sample.db0 !! 11 = Some Sample.k_reserved
  ∧ Py.int "4" = Some 4
  ∧ rating (Sample.as_user Sample.bob [("rating", "4")]) 11 Sample.db0 =
      (inr (RedirectKnockDetail 11),
       write_knock 11 (saved 7 (set_request_stars 4 Sample.k_reserved)) Sample.db0).
Proof.
  split; [reflexivity|]. split; [reflexivity|].
  refine (proj1 (proj2 (rating_by_role Sample.db0
            (Sample.as_user Sample.bob [("rating", "4")]) Sample.bob 11
            Sample.k_reserved "4" 4 1 2 _ _ _ _ _ _ _ _)) _ _);
    try reflexivity; try lia.
Defined.

Lemma rating_rejects_bad_value_witness :
  bad_rating_input (Some "6") ∧ bad_rating_input (Some "4.5") ∧ bad_rating_input None
  ∧ ∃ msg, rating (Sample.as_user Sample.bob [("rating", "6")]) 11 Sample.db0
           = (inl (PermissionDenied msg), Sample.db0).
Proof.
  split; [vm_compute; right; reflexivity|].
  split; [exact I|]. split; [exact I|].
  refine (proj1 (rating_rejects_bad_value Sample.db0
            (Sample.as_user Sample.bob [("rating", "6")]) Sample.bob 11
            Sample.k_reserved _ _ _)); try reflexivity.
  vm_compute. right. reflexivity.
Defined.

Lemma rating_unassigned_fails_witness :
  assigned_to Sample.k_open = None
  ∧ requester Sample.k_open = user_pk Sample.alice
  ∧ rating (Sample.as_user Sample.alice [("rating", "5")]) 10 Sample.db0 =
      (inl (AttributeError "'NoneType' object has no attribute 'pk'"), Sample.db0).
Proof.
  split; [reflexivity|]. split; [reflexivity|].
  refine (proj1 (rating_unassigned_fails Sample.db0
            (Sample.as_user Sample.alice [("rating", "5")]) Sample.alice 10
            Sample.k_open "5" 5 _ _ _ _ _ _)); try reflexivity.
  lia.
Defined.

Lemma assing_to_iff_witness :
  may_assign Sample.db1 Sample.alice 10 Sample.k_open 2
  ∧ assigned_to Sample.k_open = None
  ∧ ∃ db' k', assing_to (Sample.as_user Sample.alice []) 10 2 Sample.db1
                = (inr (RedirectKnockDetail 10), db')
      ∧ knocks db' !! 10 = Some k'
      ∧ assigned_to k' = Some 2
      ∧ k' = saved 7 (set_assigned_to 2 Sample.k_open)
      ∧ status k' = RESERVED.
Proof.
  assert (may_assign Sample.db1 Sample.alice 10 Sample.k_open 2) as Hm.
  { split; [reflexivity | compute_done]. }
  split; [exact Hm|]. split; [reflexivity|].
  destruct (proj1 (proj2 (assing_to_iff Sample.db1 (Sample.as_user Sample.alice [])
              Sample.alice Sample.bob 10 2 Sample.k_open eq_refl eq_refl eq_refl)) Hm)
    as (db' & k' & H1 & H2 & H3 & H4).
  exists db', k'. split; [exact H1|]. split; [exact H2|]. split; [exact H3|].
  split; [exact H4|]. rewrite H4. reflexivity.
Defined.

Lemma assing_to_overwrites_witness :
  assigned_to Sample.k_reserved = Some 2
  ∧ ∃ db' k', assing_to (Sample.as_user Sample.alice []) 11 3 Sample.db0
                = (inr (RedirectKnockDetail 11), db')
      ∧ knocks db' !! 11 = Some k'
      ∧ assigned_to k' = Some 3
      ∧ k' = saved 7 (set_assigned_to 3 Sample.k_reserved).
Proof.
  split; [reflexivity|].
  refine (assing_to_overwrites Sample.db0 (Sample.as_user Sample.alice [])
            Sample.alice Sample.carol 11 3 2 Sample.k_reserved _ _ _ _ _ _);
    reflexivity.
Defined.

(** C3, the claim as stated fails: a signed-in user who does not hold the
    permission [main.can_submit_for_knocks], is not the requester and has not
    submitted yet is sent to the login page, and no submission is
    recorded. *)
Lemma submit_without_permission :
  knocks Sample.db0 !! 10 = Some Sample.k_open
  ∧ user_pk Sample.carol ≠ requester Sample.k_open
  ∧ ((10, user_pk Sample.carol) ∉ knock_submits Sample.db0)
  ∧ submit (Sample.as_user Sample.carol []) 10 Sample.db0
    = (inr RedirectLogin, Sample.db0)
  ∧ ((10, user_pk Sample.carol)
      ∉ knock_submits ((submit (Sample.as_user Sample.carol []) 10 Sample.db0).2)).
Proof.
  assert ((10, user_pk Sample.carol) ∉ knock_submits Sample.db0) as Hn.
  { compute_done. }
  split; [reflexivity|]. split; [simpl; lia|]. split; [exact Hn|].
  rewrite (submit_eq Sample.db0 _ Sample.carol 10 Sample.k_open) by reflexivity.
  simpl. split; [reflexivity | exact Hn].
Qed.

Lemma submit_guard_witness :
  has_perm Sample.bob "main.can_submit_for_knocks" = true
  ∧ ∃ db', submit (Sample.as_user Sample.bob []) 10 Sample.db0
             = (inr (RedirectKnockDetail 10), db')
      ∧ db' = submitted 7 10 Sample.k_open 2 Sample.db0
      ∧ (10, 2) ∈ knock_submits db'
      ∧ ∀ again : HttpRequest, user again = Some Sample.bob ->
          submit again 10 db'
          = (inl (PermissionDenied "User already submitted for this Knock Knock"), db').
Proof.
  split; [reflexivity|].
  refine (proj2 (proj2 (proj1 (submit_guard Sample.db0 (Sample.as_user Sample.bob [])
            Sample.bob 10 Sample.k_open _ _) _)) _ _); try reflexivity.
  - simpl. lia.
  - compute_done.
Defined.

Lemma delete_permitted_iff_witness :
  may_delete Sample.alice Sample.k_open
  ∧ ¬ may_delete Sample.bob Sample.k_open
  ∧ ∃ db', KnockDeleteView.post (Sample.as_user Sample.alice []) 10 Sample.db0
             = (inr RedirectHomepage, db')
      ∧ knocks db' !! 10 = None.
Proof.
  assert (may_delete Sample.alice Sample.k_open) as Hm.
  { split; [reflexivity | left; reflexivity]. }
  split; [exact Hm|]. split.
  - refine (proj1 (proj2 (proj2 (proj2 (proj2 (delete_permitted_iff Sample.db0
              (Sample.as_user Sample.bob []) Sample.bob 10 Sample.k_open _ _))))) _);
      try reflexivity.
    simpl. lia.
  - refine (proj1 (proj2 (proj2 (delete_permitted_iff Sample.db0
              (Sample.as_user Sample.alice []) Sample.alice 10 Sample.k_open _ _))) Hm);
      reflexivity.
Defined.


Lemma search_pagination_witness :
  ∃ page url_params,
    search (Sample.query [("category", "GARDEN"); ("page", "9999")]) Sample.db_many
    = (inr (RenderSearch page url_params), Sample.db_many)
    ∧ number page = 3
    ∧ length (object_list page) = 5%nat.
Proof.
  pose (results :=
          match (search_results
                   (Sample.query [("category", "GARDEN"); ("page", "9999")])
                   Sample.db_many).1 with
          | inr r => r
          | inl _ => []
          end).
  assert (search_results (Sample.query [("category", "GARDEN"); ("page", "9999")])
            Sample.db_many = (inr results, Sample.db_many)) as E
    by (vm_compute; reflexivity).
  destruct (search_pagination
              (Sample.query [("category", "GARDEN"); ("page", "9999")]) Sample.db_many
              results E)
    as (page & url & Hs & _ & _ & _ & _ & H & _).
  exists page, url. split; [exact Hs|].
  rewrite (H "9999" 9999 eq_refl eq_refl); [|vm_compute; reflexivity].
  split; vm_compute; reflexivity.
Defined.

Lemma search_without_filters_witness :
  size (knocks Sample.db0) = 2%nat
  ∧ search_results (Sample.query [("title", "  "); ("date", "someday")]) Sample.db0
    = (inr [], Sample.db0).
Proof.
  split; [reflexivity|].
  refine (proj1 (proj2 (search_without_filters
            (Sample.query [("title", "  "); ("date", "someday")]) Sample.db0 _ _ _)));
    reflexivity.
Defined.

Lemma anonymous_is_sent_to_login_witness :
  rating (Sample.query []) 11 Sample.db0 = (inr RedirectLogin, Sample.db0)
  ∧ rating (Sample.query []) 99 Sample.db0 = (inr RedirectLogin, Sample.db0).
Proof.
  split.
  - refine (proj1 (proj2 (proj2
      (anonymous_is_sent_to_login (Sample.query []) 11 0 Sample.db0 _)))).
    reflexivity.
  - refine (proj1 (proj2 (proj2
      (anonymous_is_sent_to_login (Sample.query []) 99 0 Sample.db0 _)))).
    reflexivity.
Defined.

Lemma missing_knock_is_404_witness :
  rating (Sample.as_user Sample.bob []) 99 Sample.db0 = (inl Http404, Sample.db0)
  ∧ submit (Sample.as_user Sample.bob []) 99 Sample.db0 = (inl Http404, Sample.db0).
Proof.
  pose proof (missing_knock_is_404 (Sample.as_user Sample.bob []) Sample.bob 99 0
                Sample.db0 eq_refl eq_refl) as (H1 & _ & _ & H4).
  split; [exact H1 | exact (H4 eq_refl)].
Defined.

Lemma assing_to_unknown_candidate_witness :
  requester Sample.k_reserved ≠ user_pk Sample.carol
  ∧ assing_to (Sample.as_user Sample.carol []) 11 42 Sample.db0
    = (inl Http404, Sample.db0).
Proof.
  split; [simpl; lia|].
  refine (assing_to_unknown_candidate (Sample.as_user Sample.carol []) Sample.carol
            11 42 Sample.k_reserved Sample.db0 _ _ _); reflexivity.
Defined.

Lemma sample_rows (i : Z) (k : Knock) :
  knocks Sample.db0 !! i = Some k ->
  (i = 10 ∧ k = Sample.k_open) ∨ (i = 11 ∧ k = Sample.k_reserved).
Proof.
  unfold Sample.db0. simpl. intros H.
  apply lookup_insert_Some in H as [[<- <-] | [_ H]]; [by left|].
  apply lookup_insert_Some in H as [[<- <-] | [_ H]]; [by right|].
  by rewrite lookup_empty in H.
Defined.

Lemma sample_consistent : consistent Sample.db0.
Proof.
  split; [|split].
  - intros i k [[-> ->] | [-> ->]]%sample_rows; compute_done.
  - intros i k u [[-> ->] | [-> ->]]%sample_rows; simpl; [done|].
    intros [= <-]. compute_done.
  - intros i k v [[-> ->] | [-> ->]]%sample_rows; simpl; intros [?|?]; done.
Defined.

Lemma ratings_are_written_once_witness :
  ∃ k, knocks Sample.db0 !! 11 = Some k
       ∧ evolves k (saved 7 (set_request_stars 4 Sample.k_reserved)).
Proof.
  refine (ratings_are_written_once Sample.db0
            (rating (Sample.as_user Sample.bob [("rating", "4")]) 11 Sample.db0).2
            11 _ _ _).
  - apply rtc_once.
    exact (step_rating _ _ (Sample.as_user Sample.bob [("rating", "4")]) 11 eq_refl).
  - reflexivity.
Defined.

Lemma views_keep_consistency_witness :
  consistent (rating (Sample.as_user Sample.bob [("rating", "4")]) 11 Sample.db0).2.
Proof.
  refine (proj1 (views_keep_consistency Sample.db0 _ _ sample_consistent)).
  apply rtc_once.
  exact (step_rating _ _ (Sample.as_user Sample.bob [("rating", "4")]) 11 eq_refl).
Defined.

Lemma submit_then_assign_witness :
  ∃ db1 db2 k2,
    submit (Sample.as_user Sample.bob []) 10 Sample.db0 = (inr (RedirectKnockDetail 10), db1)
    ∧ assing_to (Sample.as_user Sample.alice []) 10 2 db1 = (inr (RedirectKnockDetail 10), db2)
    ∧ knocks db2 !! 10 = Some k2
    ∧ assigned_to k2 = Some 2.
Proof.
  refine (proj2 (submit_then_assign Sample.db0 (Sample.as_user Sample.bob [])
            (Sample.as_user Sample.alice []) Sample.bob Sample.alice Sample.bob 10
            Sample.k_open _ _ _ _ _ _ _ _)); try reflexivity.
  - simpl. lia.
  - compute_done.
Defined.

Lemma assign_then_rate_witness :
  ∃ db1 db2 k2,
    assing_to (Sample.as_user Sample.alice []) 11 3 Sample.db0
    = (inr (RedirectKnockDetail 11), db1)
    ∧ rating (Sample.as_user Sample.carol [("rating", "2")]) 11 db1
      = (inr (RedirectKnockDetail 11), db2)
    ∧ knocks db2 !! 11 = Some k2
    ∧ assigned_to k2 = Some 3
    ∧ request_stars k2 = Some 2.
Proof.
  refine (assign_then_rate Sample.db0 (Sample.as_user Sample.alice [])
            (Sample.as_user Sample.carol [("rating", "2")]) Sample.alice Sample.carol
            Sample.carol 11 Sample.k_reserved "2" 2 _ _ _ _ _ _ _ _ _); reflexivity.
Defined.

Lemma deleted_knock_is_gone_witness :
  let db' := (KnockDeleteView.post (Sample.as_user Sample.alice []) 10 Sample.db0).2 in
  rating (Sample.as_user Sample.alice [("rating", "3")]) 10 db' = (inl Http404, db').
Proof.
  refine (proj1 (deleted_knock_is_gone Sample.db0 _ (Sample.as_user Sample.alice [])
            (Sample.as_user Sample.alice [("rating", "3")]) Sample.alice 10 0 _ _));
    reflexivity.
Defined.

Lemma reassign_after_rating_witness :
  let db := (rating (Sample.as_user Sample.bob [("rating", "4")]) 11 Sample.db0).2 in
  ∃ db1 k1,
    assing_to (Sample.as_user Sample.alice []) 11 3 db = (inr (RedirectKnockDetail 11), db1)
    ∧ knocks db1 !! 11 = Some k1
    ∧ request_stars k1 = Some 4
    ∧ rating (Sample.as_user Sample.carol [("rating", "5")]) 11 db1
      = (inl (PermissionDenied "Worker already rated this Knock Knock"), db1)
    ∧ rating (Sample.as_user Sample.bob [("rating", "1")]) 11 db1
      = (inl (PermissionDenied "Only requester and assigned can rate this Knock Knock"),
         db1).
Proof.
  refine (reassign_after_rating
            (rating (Sample.as_user Sample.bob [("rating", "4")]) 11 Sample.db0).2
            (Sample.as_user Sample.alice [])
            (Sample.as_user Sample.carol [("rating", "5")])
            (Sample.as_user Sample.bob [("rating", "1")])
            Sample.alice Sample.carol Sample.bob Sample.carol 11
            (saved 7 (set_request_stars 4 Sample.k_reserved)) 4 "5" "1" 5 1
            _ _ _ _ _ _ _ _ _ _ _ _ _ _ _); try reflexivity; simpl; lia.
Defined.

Lemma rated_knock_leaves_my_knocks_witness :
  ∃ ctx ctx',
    homepage (Sample.as_user Sample.bob []) Sample.db0
    = (inr (RenderHomepage ctx), Sample.db0)
    ∧ homepage (Sample.as_user Sample.bob [])
        (rating (Sample.as_user Sample.bob [("rating", "4")]) 11 Sample.db0).2
      = (inr (RenderHomepage ctx'),
         (rating (Sample.as_user Sample.bob [("rating", "4")]) 11 Sample.db0).2)
    ∧ (11, Sample.k_reserved) ∈ my_knocks ctx ∧ ∀ k', (11, k') ∉ my_knocks ctx'.
Proof.
  eexists _, _. split; [reflexivity|]. split; [reflexivity|].
  refine (rated_knock_leaves_my_knocks Sample.db0 _
            (Sample.as_user Sample.bob [("rating", "4")])
            (Sample.as_user Sample.bob []) Sample.bob 11 Sample.k_reserved _ _
            _ _ _ _ _ _ _ _); try reflexivity; simpl; congruence.
Defined.

Lemma submitted_knock_in_my_submits_witness :
  ∃ ctx,
    homepage (Sample.as_user Sample.bob [])
      (submit (Sample.as_user Sample.bob []) 10 Sample.db0).2
    = (inr (RenderHomepage ctx), (submit (Sample.as_user Sample.bob []) 10 Sample.db0).2)
    ∧ (10, saved 7 Sample.k_open) ∈ my_submits ctx.
Proof.
  eexists. split; [reflexivity|].
  refine (proj2 (proj2 (proj2 (proj2 (submitted_knock_in_my_submits
            (submit (Sample.as_user Sample.bob []) 10 Sample.db0).2
            (Sample.as_user Sample.bob []) Sample.bob _ eq_refl eq_refl))
            Sample.db0 (Sample.as_user Sample.bob []) 10 Sample.k_open
            eq_refl eq_refl eq_refl)) eq_refl).
Defined.

Lemma written_knock_heads_homepage_witness :
  ∃ ctx k',
    homepage (Sample.query [])
      (assing_to (Sample.as_user Sample.alice []) 11 3 Sample.db0).2
    = (inr (RenderHomepage ctx),
       (assing_to (Sample.as_user Sample.alice []) 11 3 Sample.db0).2)
    ∧ update_time k' = 7
    ∧ last_updated_knocks ctx !! 0%nat = Some (11, k').
Proof.
  exists (mkHomepage
            (take 20 (order_by_update_time_desc (map_to_list (knocks
               (assing_to (Sample.as_user Sample.alice []) 11 3 Sample.db0).2))))
            [] []).
  destruct (written_knock_heads_homepage Sample.db0
              (assing_to (Sample.as_user Sample.alice []) 11 3 Sample.db0).2
              (Sample.as_user Sample.alice []) (Sample.query []) 11
              (mkHomepage
                 (take 20 (order_by_update_time_desc (map_to_list (knocks
                    (assing_to (Sample.as_user Sample.alice []) 11 3 Sample.db0).2))))
                 [] [])
              (or_intror (or_introl (ex_intro _ 3 eq_refl)))) as (k' & _ & H1 & H2).
  - intros j kj [[-> ->] | [-> ->]]%sample_rows; simpl; lia.
  - reflexivity.
  - exists k'. split; [reflexivity|]. split; [exact H1 | exact H2].
Defined.

Lemma profile_ratings_witness :
  let db := (rating (Sample.as_user Sample.bob [("rating", "4")]) 11 Sample.db0).2 in
  ∃ ctx, profile (Sample.query []) 1 db = (inr (RenderProfile ctx), db)
         ∧ request_rating ctx = Some (mkAverage 4 1)
         ∧ (work_rating ctx = None
            ↔ ∀ i k, knocks db !! i = Some k -> assigned_to k = Some 1 ->
                     work_stars k = None).
Proof.
  eexists. split; [reflexivity|]. split; [reflexivity|].
  refine (proj1 (proj2 (profile_ratings (Sample.query []) 1 _ _ _))). reflexivity.
Defined.

Lemma worker_rating_updates_profile_witness :
  ∃ db' ctx',
    rating (Sample.as_user Sample.bob [("rating", "4")]) 11 Sample.db0
    = (inr (RedirectKnockDetail 11), db')
    ∧ profile (Sample.query []) 1 db' = (inr (RenderProfile ctx'), db')
    ∧ request_rating ctx' = Some (mkAverage 4 1).
Proof.
  destruct (worker_rating_updates_profile Sample.db0
              (Sample.as_user Sample.bob [("rating", "4")]) (Sample.query [])
              Sample.bob Sample.alice 11 Sample.k_reserved "4" 4
              eq_refl eq_refl eq_refl eq_refl eq_refl eq_refl eq_refl)
    as (db' & ctx & ctx' & H1 & H2 & H3 & H4 & _).
  exists db', ctx'. split; [exact H1|]. split; [exact H3|].
  rewrite H4. injection H2 as <-. reflexivity.
Defined.

Lemma requester_rating_updates_profile_witness :
  ∃ db' ctx',
    rating (Sample.as_user Sample.alice [("rating", "5")]) 11 Sample.db0
    = (inr (RedirectKnockDetail 11), db')
    ∧ profile (Sample.query []) 2 db' = (inr (RenderProfile ctx'), db')
    ∧ work_rating ctx' = Some (mkAverage 5 1).
Proof.
  destruct (requester_rating_updates_profile Sample.db0
              (Sample.as_user Sample.alice [("rating", "5")]) (Sample.query [])
              Sample.alice Sample.bob 11 2 Sample.k_reserved "5" 5)
    as (db' & ctx & ctx' & H1 & H2 & H3 & H4 & _); try reflexivity.
  { simpl. lia. }
  exists db', ctx'. split; [exact H1|]. split; [exact H3|].
  rewrite H4. injection H2 as <-. reflexivity.
Defined.

Lemma search_page_below_one_witness :
  ∃ page url_params,
    search (Sample.query [("category", "GARDEN"); ("page", "0")]) Sample.db_many
    = (inr (RenderSearch page url_params), Sample.db_many)
    ∧ number page = 3
    ∧ length (object_list page) = 5%nat.
Proof.
  pose (results :=
          match (search_results
                   (Sample.query [("category", "GARDEN"); ("page", "0")])
                   Sample.db_many).1 with
          | inr r => r
          | inl _ => []
          end).
  assert (search_results (Sample.query [("category", "GARDEN"); ("page", "0")])
            Sample.db_many = (inr results, Sample.db_many)) as E
    by (vm_compute; reflexivity).
  destruct (search_page_below_one
              (Sample.query [("category", "GARDEN"); ("page", "0")]) Sample.db_many
              results "0" 0 E) as [url Hs]; [reflexivity | reflexivity | lia |].
  eexists _, url. split; [exact Hs|].
  split; vm_compute; reflexivity.
Defined.

